(** * Chromebook detection and CPU / iGPU spoofing

    A shallow embedding of [Scripts/chromebook_spoofer.py] (class
    [ChromebookSpoofer]) and the properties its specification states.

    The hardware report is a JSON-like Python value: nested dictionaries
    whose leaves are strings.  Python dictionaries keep insertion order and
    the loops of the source iterate in that order, so a dictionary is an
    association list; [dict.get] finds the first binding of a key.  A
    string is the sequence of its characters, one [ascii] each: the
    identifiers, names and literals at stake are ASCII.  Every method that
    can raise on an ill-shaped report returns a [result]. *)

From Stdlib Require Import String Ascii List Bool Arith Lia.
From Stdlib Require Import DecimalString.
Import ListNotations.
Local Open Scope string_scope.
Local Open Scope list_scope.

(** ** Python values, exceptions and the builtins the source uses *)

Module Py.

#[warnings="-register-all"]
Inductive pyval : Type :=
| PNone : pyval
| PStr (s : string)
| PDict (d : list (string * pyval)).

Inductive pyexn : Type :=
| AttributeError
| TypeError
| KeyError.

Inductive result (A : Type) : Type :=
| Ok (a : A)
| Raise (e : pyexn).

Arguments Ok {A} a.
Arguments Raise {A} e.

Definition bind {A B : Type} (m : result A) (k : A -> result B) : result B :=
  match m with
  | Ok a => k a
  | Raise e => Raise e
  end.

Definition is_ok {A : Type} (m : result A) : bool :=
  match m with
  | Ok _ => true
  | Raise _ => false
  end.

(** [needle in s] on two strings: some suffix of [s] starts with [needle]. *)
Fixpoint contains (needle s : string) : bool :=
  String.prefix needle s ||
  match s with
  | EmptyString => false
  | String _ rest => contains needle rest
  end.

(** [s[n:]] for a non-negative [n]. *)
Fixpoint str_drop (n : nat) (s : string) : string :=
  match n, s with
  | O, _ => s
  | S _, EmptyString => EmptyString
  | S m, String _ rest => str_drop m rest
  end.

(** [str.upper] on the ASCII letters.  Characters outside ASCII are left
    alone: no such character upper-cases to a string in which the letters
    of GOOGLE could line up, so the vendor test below is not affected. *)
Definition upper_char (c : ascii) : ascii :=
  let n := nat_of_ascii c in
  if ((97 <=? n) && (n <=? 122))%nat then ascii_of_nat (n - 32) else c.

Fixpoint upper (s : string) : string :=
  match s with
  | EmptyString => EmptyString
  | String c rest => String (upper_char c) (upper rest)
  end.

Fixpoint dict_lookup {A : Type} (k : string) (d : list (string * A)) : option A :=
  match d with
  | [] => None
  | (k', v) :: rest => if String.eqb k k' then Some v else dict_lookup k rest
  end.

(** [d[k] = v]: an existing key keeps its place, a new key goes last. *)
Fixpoint dict_set {A : Type} (k : string) (v : A) (d : list (string * A))
  : list (string * A) :=
  match d with
  | [] => [(k, v)]
  | (k', v') :: rest =>
      if String.eqb k k' then (k', v) :: rest else (k', v') :: dict_set k v rest
  end.

Definition str_mem (s : string) (l : list string) : bool :=
  existsb (String.eqb s) l.

(** [v.get(k, default)] *)
Definition py_get (v : pyval) (k : string) (default : pyval) : result pyval :=
  match v with
  | PDict d =>
      Ok (match dict_lookup k d with Some x => x | None => default end)
  | _ => Raise AttributeError
  end.

(** [v.items()] *)
Definition py_items (v : pyval) : result (list (string * pyval)) :=
  match v with
  | PDict d => Ok d
  | _ => Raise AttributeError
  end.

(** [v.upper()] *)
Definition py_upper (v : pyval) : result string :=
  match v with
  | PStr s => Ok (upper s)
  | _ => Raise AttributeError
  end.

(** [needle in v] for a string literal [needle]: substring test on a
    string, key test on a dictionary, [TypeError] on [None]. *)
Definition py_in (needle : string) (v : pyval) : result bool :=
  match v with
  | PStr s => Ok (contains needle s)
  | PDict d => Ok (str_mem needle (map fst d))
  | PNone => Raise TypeError
  end.

(** [len(v)] *)
Definition py_len (v : pyval) : result nat :=
  match v with
  | PStr s => Ok (String.length s)
  | PDict d => Ok (List.length d)
  | PNone => Raise TypeError
  end.

(** [v[n:]]; a dictionary cannot be indexed by a slice. *)
Definition py_slice_from (n : nat) (v : pyval) : result pyval :=
  match v with
  | PStr s => Ok (PStr (str_drop n s))
  | _ => Raise TypeError
  end.

Definition starts_with_any (s : string) (prefixes : list string) : bool :=
  existsb (fun p => String.prefix p s) prefixes.

(** [v.startswith((p1, ..., pn))] *)
Definition py_startswith (v : pyval) (prefixes : list string) : result bool :=
  match v with
  | PStr s => Ok (starts_with_any s prefixes)
  | _ => Raise AttributeError
  end.

End Py.

Import Py.

Notation "x <- m ;; k" := (bind m (fun x => k))
  (at level 61, m at next level, right associativity).

(** ** The hardware report as the specification describes it

    Sections [Motherboard] and [CPU] are dictionaries of strings, sections
    [System Devices] and [GPU] are dictionaries (with distinct keys) of such
    dictionaries; every section and every field may be absent. *)

Definition is_str (v : pyval) : bool :=
  match v with
  | PStr _ => true
  | _ => false
  end.

Definition absent_or {A : Type} (p : A -> bool) (o : option A) : bool :=
  match o with
  | Some a => p a
  | None => true
  end.

Definition fields_are_str (fields : list string) (v : pyval) : bool :=
  match v with
  | PDict d => forallb (fun k => absent_or is_str (dict_lookup k d)) fields
  | _ => false
  end.

Fixpoint distinct (l : list string) : bool :=
  match l with
  | [] => true
  | k :: rest => negb (str_mem k rest) && distinct rest
  end.

Definition entries_ok (fields : list string) (v : pyval) : bool :=
  match v with
  | PDict d =>
      distinct (map fst d) && forallb (fun kv => fields_are_str fields (snd kv)) d
  | _ => false
  end.

Definition device_fields : list string := ["Device ID"; "Subsystem ID"].
Definition gpu_fields : list string := ["Manufacturer"; "Device ID"; "Device Type"].
Definition cpu_fields : list string := ["Processor Name"; "Codename"].

Definition well_formed (hardware_report : pyval) : bool :=
  match hardware_report with
  | PDict d =>
      absent_or (fields_are_str ["Name"]) (dict_lookup "Motherboard" d)
      && absent_or (entries_ok device_fields) (dict_lookup "System Devices" d)
      && absent_or (entries_ok gpu_fields) (dict_lookup "GPU" d)
      && absent_or (fields_are_str cpu_fields) (dict_lookup "CPU" d)
  | _ => false
  end.

(** Views of a report: the entries of a section and a string field, with
    the default the source passes to [get]. *)
Definition section (hardware_report : pyval) (k : string) : list (string * pyval) :=
  match hardware_report with
  | PDict d =>
      match dict_lookup k d with
      | Some (PDict s) => s
      | _ => []
      end
  | _ => []
  end.

Definition field (props : list (string * pyval)) (k default : string) : string :=
  match dict_lookup k props with
  | Some (PStr s) => s
  | _ => default
  end.

Definition props_of (v : pyval) : list (string * pyval) :=
  match v with
  | PDict d => d
  | _ => []
  end.

(** ** [spoof_igpu_for_chromebook] *)

(** One value of the [spoof_config] dictionary. *)
Record igpu_spoof : Type := {
  original_device_id : pyval;
  spoofed_device_id : string;
  ig_platform_id : string;
  igpu_reason : string
}.

(** The [if]/[elif] chain on [device_id_short]: the entry stored for the
    GPU, or [None] when no branch is taken. *)
Definition igpu_chain (device_id device_id_short : pyval)
  : result (option igpu_spoof) :=
  haswell <- py_startswith device_id_short ["0A06"; "0A16"; "0A1E"; "0A26"; "0A2E"] ;;
  if haswell then
    Ok (Some {| original_device_id := device_id;
                spoofed_device_id := "12040000";
                ig_platform_id := "0600260A";
                igpu_reason := "Chromebook Haswell iGPU spoofing" |})
  else
  broadwell <- py_startswith device_id_short ["1606"; "1616"; "161E"; "1626"; "162B"] ;;
  if broadwell then
    Ok (Some {| original_device_id := device_id;
                spoofed_device_id := "16160000";
                ig_platform_id := "06002616";
                igpu_reason := "Chromebook Broadwell iGPU spoofing" |})
  else
  skylake <- py_startswith device_id_short ["1906"; "1916"; "191E"; "1926"; "192B"] ;;
  if skylake then
    Ok (Some {| original_device_id := device_id;
                spoofed_device_id := "16190000";
                ig_platform_id := "00001619";
                igpu_reason := "Chromebook Skylake iGPU spoofing" |})
  else
  kaby_lake <- py_startswith device_id_short ["5906"; "5916"; "591E"; "5926"; "5927"] ;;
  if kaby_lake then
    Ok (Some {| original_device_id := device_id;
                spoofed_device_id := "16590000";
                ig_platform_id := "00001659";
                igpu_reason := "Chromebook Kaby Lake iGPU spoofing" |})
  else
  apollo_lake <- py_startswith device_id_short ["5A84"; "5A85"] ;;
  if apollo_lake then
    Ok (Some {| original_device_id := device_id;
                spoofed_device_id := "5A850000";
                ig_platform_id := "00005A84";
                igpu_reason := "Chromebook Apollo Lake iGPU spoofing" |})
  else
  gemini_lake <- py_startswith device_id_short ["3184"; "3185"] ;;
  if gemini_lake then
    Ok (Some {| original_device_id := device_id;
                spoofed_device_id := "85310000";
                ig_platform_id := "00003185";
                igpu_reason := "Chromebook Gemini Lake iGPU spoofing" |})
  else
  comet_lake <- py_startswith device_id_short ["9B41"; "9BA5"; "9BA8"] ;;
  if comet_lake then
    Ok (Some {| original_device_id := device_id;
                spoofed_device_id := "A53B0000";
                ig_platform_id := "0000A53B";
                igpu_reason := "Chromebook Comet Lake iGPU spoofing" |})
  else
  ice_lake <- py_startswith device_id_short ["8A51"; "8A52"; "8A5A"] ;;
  if ice_lake then
    Ok (Some {| original_device_id := device_id;
                spoofed_device_id := "5A528A00";
                ig_platform_id := "00528A8A";
                igpu_reason := "Chromebook Ice Lake iGPU spoofing" |})
  else Ok None.

(** [device_id[5:] if len(device_id) >= 9 else device_id] *)
Definition device_id_short_of (device_id : pyval) : result pyval :=
  n <- py_len device_id ;;
  if (9 <=? n)%nat then py_slice_from 5 device_id else Ok device_id.

(** The body of the loop for one GPU: [None] stands for [continue] and for
    a chain in which no branch assigns. *)
Definition igpu_body (gpu_props : pyval) : result (option igpu_spoof) :=
  gpu_manufacturer <- py_get gpu_props "Manufacturer" (PStr "") ;;
  device_id <- py_get gpu_props "Device ID" (PStr "") ;;
  gpu_type <- py_get gpu_props "Device Type" (PStr "") ;;
  intel <- py_in "Intel" gpu_manufacturer ;;
  skip <- (if negb intel then Ok true
           else integrated <- py_in "Integrated" gpu_type ;; Ok (negb integrated)) ;;
  if skip then Ok None
  else
    device_id_short <- device_id_short_of device_id ;;
    igpu_chain device_id device_id_short.

Fixpoint igpu_loop (items : list (string * pyval))
    (spoof_config : list (string * igpu_spoof))
  : result (list (string * igpu_spoof)) :=
  match items with
  | [] => Ok spoof_config
  | (gpu_name, gpu_props) :: rest =>
      entry <- igpu_body gpu_props ;;
      match entry with
      | Some e => igpu_loop rest (dict_set gpu_name e spoof_config)
      | None => igpu_loop rest spoof_config
      end
  end.

Definition spoof_igpu_for_chromebook (hardware_report macos_version : pyval)
  : result (list (string * igpu_spoof)) :=
  gpus <- py_get hardware_report "GPU" (PDict []) ;;
  items <- py_items gpus ;;
  igpu_loop items [].

(** ** [spoof_cpu_for_chromebook] *)

(** The [spoof_info] dictionary; [spoof_as] and [cpuid_data] are keys that
    exist only once a branch of the codename chain has assigned them. *)
Record cpu_spoof : Type := {
  needs_spoofing : bool;
  original_cpu : pyval;
  cpu_reason : string;
  spoof_as : option string;
  cpuid_data : option string
}.

(** The [if]/[elif]/[else] chain on [cpu_codename]: the pair assigned to
    [spoof_as] and [cpuid_data]. *)
Definition cpu_chain (cpu_codename : pyval) : result (string * string) :=
  haswell <- py_in "Haswell" cpu_codename ;;
  if haswell then Ok ("Core i5-4300U", "C3060300") else
  broadwell <- py_in "Broadwell" cpu_codename ;;
  if broadwell then Ok ("Core i5-5300U", "D4060300") else
  skylake <- py_in "Skylake" cpu_codename ;;
  if skylake then Ok ("Core i5-6300U", "E3060300") else
  kaby_lake <- py_in "Kaby Lake" cpu_codename ;;
  if kaby_lake then Ok ("Core i5-7300U", "E9060300") else
  apollo_lake <- py_in "Apollo Lake" cpu_codename ;;
  goldmont <- (if apollo_lake then Ok true else py_in "Goldmont" cpu_codename) ;;
  if goldmont then Ok ("Core i3-7100U", "E9060300") else
  gemini_lake <- py_in "Gemini Lake" cpu_codename ;;
  if gemini_lake then Ok ("Core i3-8100", "EA060900") else
  comet_lake <- py_in "Comet Lake" cpu_codename ;;
  if comet_lake then Ok ("Core i5-10210U", "EC060A00") else
  ice_lake <- py_in "Ice Lake" cpu_codename ;;
  if ice_lake then Ok ("Core i5-1035G1", "E5060700") else
  Ok ("Core i5 (Generic)", "E3060300").

Definition spoof_cpu_for_chromebook (hardware_report : pyval) : result cpu_spoof :=
  cpu <- py_get hardware_report "CPU" (PDict []) ;;
  cpu_name <- py_get cpu "Processor Name" (PStr "") ;;
  cpu' <- py_get hardware_report "CPU" (PDict []) ;;
  cpu_codename <- py_get cpu' "Codename" (PStr "") ;;
  celeron <- py_in "Celeron" cpu_name ;;
  low_end <- (if celeron then Ok true else py_in "Pentium" cpu_name) ;;
  if low_end then
    chosen <- cpu_chain cpu_codename ;;
    Ok {| needs_spoofing := true;
          original_cpu := cpu_name;
          cpu_reason := "Chromebook low-end CPU detected (Celeron/Pentium)";
          spoof_as := Some (fst chosen);
          cpuid_data := Some (snd chosen) |}
  else
    Ok {| needs_spoofing := false;
          original_cpu := cpu_name;
          cpu_reason := "";
          spoof_as := None;
          cpuid_data := None |}.

(** ** Detection, diagnostics and the report

    [pci_data.ChromebookIDs] lives in [Scripts/datasets/pci_data.py]; the
    methods below take it as a parameter. *)

Record matched_device : Type := {
  dev_name : string;
  dev_device_id : pyval;
  dev_subsystem_id : pyval
}.

Record chromebook_info : Type := {
  info_is_chromebook : bool;
  info_motherboard : pyval;
  info_chromebook_devices : list matched_device
}.

(** The report dictionary; [None] in [rep_cpu_spoofing] is the empty
    dictionary the report starts with. *)
Record chromebook_report : Type := {
  rep_is_chromebook : bool;
  rep_chromebook_info : chromebook_info;
  rep_igpu_spoofing : list (string * igpu_spoof);
  rep_cpu_spoofing : option cpu_spoof;
  rep_recommendations : list string
}.

Definition quirk_note : string :=
  "Chromebook detected - ProtectMemoryRegions quirk will be enabled".
Definition igpu_note : string :=
  "iGPU spoofing required for proper graphics acceleration".
Definition cpu_note (model : string) : string :=
  String.append "CPU will be spoofed as " model.
Definition firmware_note : string :=
  "Ensure you have disabled firmware write protection before installation".
Definition acpi_note : string :=
  "ChromeOS firmware may require additional ACPI patches".

Section Spoofer.

(** Modelled from the spec: the Reference Dataset [pci_data.ChromebookIDs],
    a mapping from a device-identifier string to the set of
    subsystem-identifier strings that go with it (a set is given by the
    list of its members). *)
Variable ChromebookIDs : list (string * list string).

(** [device_id in pci_data.ChromebookIDs]: a dictionary is unhashable. *)
Definition ids_contains (device_id : pyval) : result bool :=
  match device_id with
  | PStr s => Ok (str_mem s (map fst ChromebookIDs))
  | PNone => Ok false
  | PDict _ => Raise TypeError
  end.

(** [pci_data.ChromebookIDs[device_id]] *)
Definition ids_getitem (device_id : pyval) : result (list string) :=
  match device_id with
  | PStr s =>
      match dict_lookup s ChromebookIDs with
      | Some subsystems => Ok subsystems
      | None => Raise KeyError
      end
  | PNone => Raise KeyError
  | PDict _ => Raise TypeError
  end.

(** [subsystem_id in subsystems], the collection being a set: a dictionary
    is unhashable there too. *)
Definition subsystems_contain (subsystem_id : pyval) (subsystems : list string)
  : result bool :=
  match subsystem_id with
  | PStr s => Ok (str_mem s subsystems)
  | PNone => Ok false
  | PDict _ => Raise TypeError
  end.

(** The two nested [if]s both loops over [System Devices] share. *)
Definition known_device (device_id subsystem_id : pyval) : result bool :=
  listed <- ids_contains device_id ;;
  if listed then
    subsystems <- ids_getitem device_id ;;
    subsystems_contain subsystem_id subsystems
  else Ok false.

Fixpoint is_chromebook_loop (items : list (string * pyval)) : result bool :=
  match items with
  | [] => Ok false
  | (device_name, device_props) :: rest =>
      device_id <- py_get device_props "Device ID" (PStr "") ;;
      subsystem_id <- py_get device_props "Subsystem ID" (PStr "") ;;
      hit <- known_device device_id subsystem_id ;;
      if hit then Ok true else is_chromebook_loop rest
  end.

Definition is_chromebook (hardware_report : pyval) : result bool :=
  motherboard <- py_get hardware_report "Motherboard" (PDict []) ;;
  motherboard_name <- py_get motherboard "Name" (PStr "") ;;
  shouted <- py_upper motherboard_name ;;
  if contains "GOOGLE" shouted then Ok true
  else
    system_devices <- py_get hardware_report "System Devices" (PDict []) ;;
    items <- py_items system_devices ;;
    is_chromebook_loop items.

Fixpoint chromebook_devices_loop (items : list (string * pyval))
    (found : list matched_device) : result (list matched_device) :=
  match items with
  | [] => Ok found
  | (device_name, device_props) :: rest =>
      device_id <- py_get device_props "Device ID" (PStr "") ;;
      subsystem_id <- py_get device_props "Subsystem ID" (PStr "") ;;
      hit <- known_device device_id subsystem_id ;;
      if hit then
        chromebook_devices_loop rest
          (found ++ [{| dev_name := device_name;
                        dev_device_id := device_id;
                        dev_subsystem_id := subsystem_id |}])
      else chromebook_devices_loop rest found
  end.

Definition get_chromebook_info (hardware_report : pyval) : result chromebook_info :=
  detected <- is_chromebook hardware_report ;;
  motherboard <- py_get hardware_report "Motherboard" (PDict []) ;;
  motherboard_name <- py_get motherboard "Name" (PStr "Unknown") ;;
  system_devices <- py_get hardware_report "System Devices" (PDict []) ;;
  items <- py_items system_devices ;;
  devices <- chromebook_devices_loop items [] ;;
  Ok {| info_is_chromebook := detected;
        info_motherboard := motherboard_name;
        info_chromebook_devices := devices |}.

(** Truth value of a dictionary: it is non-empty. *)
Definition truthy {A : Type} (d : list A) : bool :=
  match d with
  | [] => false
  | _ :: _ => true
  end.

Definition generate_chromebook_report (hardware_report macos_version : pyval)
  : result chromebook_report :=
  detected <- is_chromebook hardware_report ;;
  info <- get_chromebook_info hardware_report ;;
  if detected then
    igpu_spoofing <- spoof_igpu_for_chromebook hardware_report macos_version ;;
    cpu_spoofing <- spoof_cpu_for_chromebook hardware_report ;;
    let recommendations := [quirk_note] in
    let recommendations :=
      if truthy igpu_spoofing then recommendations ++ [igpu_note]
      else recommendations in
    let recommendations :=
      if needs_spoofing cpu_spoofing then
        recommendations ++
          [cpu_note (match spoof_as cpu_spoofing with
                     | Some model => model
                     | None => "supported model"
                     end)]
      else recommendations in
    let recommendations := recommendations ++ [firmware_note] in
    let recommendations := recommendations ++ [acpi_note] in
    Ok {| rep_is_chromebook := detected;
          rep_chromebook_info := info;
          rep_igpu_spoofing := igpu_spoofing;
          rep_cpu_spoofing := Some cpu_spoofing;
          rep_recommendations := recommendations |}
  else
    Ok {| rep_is_chromebook := detected;
          rep_chromebook_info := info;
          rep_igpu_spoofing := [];
          rep_cpu_spoofing := None;
          rep_recommendations := [] |}.

End Spoofer.

(** ** The tables and rules as the specification words them *)

(** A row of the generation table of the graphics resolver. *)
Record generation_rule : Type := {
  gen_name : string;
  gen_prefixes : list string;
  gen_device_id : string;
  gen_platform_tag : string
}.

Definition generation_table : list generation_rule :=
  [ {| gen_name := "Haswell";
       gen_prefixes := ["0A06"; "0A16"; "0A1E"; "0A26"; "0A2E"];
       gen_device_id := "12040000"; gen_platform_tag := "0600260A" |};
    {| gen_name := "Broadwell";
       gen_prefixes := ["1606"; "1616"; "161E"; "1626"; "162B"];
       gen_device_id := "16160000"; gen_platform_tag := "06002616" |};
    {| gen_name := "Skylake";
       gen_prefixes := ["1906"; "1916"; "191E"; "1926"; "192B"];
       gen_device_id := "16190000"; gen_platform_tag := "00001619" |};
    {| gen_name := "Kaby Lake";
       gen_prefixes := ["5906"; "5916"; "591E"; "5926"; "5927"];
       gen_device_id := "16590000"; gen_platform_tag := "00001659" |};
    {| gen_name := "Apollo Lake";
       gen_prefixes := ["5A84"; "5A85"];
       gen_device_id := "5A850000"; gen_platform_tag := "00005A84" |};
    {| gen_name := "Gemini Lake";
       gen_prefixes := ["3184"; "3185"];
       gen_device_id := "85310000"; gen_platform_tag := "00003185" |};
    {| gen_name := "Comet Lake";
       gen_prefixes := ["9B41"; "9BA5"; "9BA8"];
       gen_device_id := "A53B0000"; gen_platform_tag := "0000A53B" |};
    {| gen_name := "Ice Lake";
       gen_prefixes := ["8A51"; "8A52"; "8A5A"];
       gen_device_id := "5A528A00"; gen_platform_tag := "00528A8A" |} ].

Definition rule_matches (short : string) (rule : generation_rule) : bool :=
  starts_with_any short (gen_prefixes rule).

(** Rows are tried in order; the first one that matches wins. *)
Definition first_rule (short : string) : option generation_rule :=
  find (rule_matches short) generation_table.

(** The generation identifier of a device identifier, as the source
    extracts it. *)
Definition generation_id (device_id : string) : string :=
  if (9 <=? String.length device_id)%nat then str_drop 5 device_id else device_id.

(** The last [n] characters of [s] (all of [s] when it is shorter). *)
Definition trailing (n : nat) (s : string) : string :=
  str_drop (String.length s - n) s.

(** A row of the codename table of the processor resolver. *)
Record codename_rule : Type := {
  code_substrings : list string;
  code_model : string;
  code_payload : string
}.

Definition codename_table : list codename_rule :=
  [ {| code_substrings := ["Haswell"];
       code_model := "Core i5-4300U"; code_payload := "C3060300" |};
    {| code_substrings := ["Broadwell"];
       code_model := "Core i5-5300U"; code_payload := "D4060300" |};
    {| code_substrings := ["Skylake"];
       code_model := "Core i5-6300U"; code_payload := "E3060300" |};
    {| code_substrings := ["Kaby Lake"];
       code_model := "Core i5-7300U"; code_payload := "E9060300" |};
    {| code_substrings := ["Apollo Lake"; "Goldmont"];
       code_model := "Core i3-7100U"; code_payload := "E9060300" |};
    {| code_substrings := ["Gemini Lake"];
       code_model := "Core i3-8100"; code_payload := "EA060900" |};
    {| code_substrings := ["Comet Lake"];
       code_model := "Core i5-10210U"; code_payload := "EC060A00" |};
    {| code_substrings := ["Ice Lake"];
       code_model := "Core i5-1035G1"; code_payload := "E5060700" |} ].

Definition codename_matches (codename : string) (rule : codename_rule) : bool :=
  existsb (fun sub => contains sub codename) (code_substrings rule).

Definition generic_fallback : string * string :=
  ("Core i5 (Generic)", "E3060300").

Definition resolve_codename (codename : string) : string * string :=
  match find (codename_matches codename) codename_table with
  | Some rule => (code_model rule, code_payload rule)
  | None => generic_fallback
  end.

(** [needle] occurs in [s] up to the case of ASCII letters. *)
Definition case_insensitive_substring (needle s : string) : Prop :=
  exists pre mid post,
    s = String.append pre (String.append mid post) /\ upper mid = upper needle.

Definition vendor_name : string := "Google".

Definition motherboard_name (hardware_report : pyval) : string :=
  field (section hardware_report "Motherboard") "Name" "".

(** Rule A of the platform detector. *)
Definition rule_A (hardware_report : pyval) : Prop :=
  case_insensitive_substring vendor_name (motherboard_name hardware_report).

(** Rule B of the platform detector, against a reference dataset. *)
Definition rule_B (dataset : list (string * list string)) (hardware_report : pyval)
  : Prop :=
  exists device_name device_props subsystems,
    In (device_name, device_props) (section hardware_report "System Devices") /\
    dict_lookup (field (props_of device_props) "Device ID" "") dataset
      = Some subsystems /\
    In (field (props_of device_props) "Subsystem ID" "") subsystems.

(** The [Motherboard] section, or its [Name] field, is absent. *)
Definition name_absent (hardware_report : pyval) : bool :=
  match hardware_report with
  | PDict d =>
      match dict_lookup "Motherboard" d with
      | None => true
      | Some (PDict m) =>
          match dict_lookup "Name" m with
          | None => true
          | Some _ => false
          end
      | Some _ => false
      end
  | _ => false
  end.

(** The report with its [Motherboard] section replaced by one that only
    holds the given name. *)
Definition with_motherboard_name (name : string) (hardware_report : pyval) : pyval :=
  match hardware_report with
  | PDict d => PDict (dict_set "Motherboard" (PDict [("Name", PStr name)]) d)
  | other => other
  end.

(** The entry a matched row gives to a GPU. *)
Definition entry_of_rule (device_id : pyval) (rule : generation_rule) : igpu_spoof :=
  {| original_device_id := device_id;
     spoofed_device_id := gen_device_id rule;
     ig_platform_id := gen_platform_tag rule;
     igpu_reason :=
       String.append "Chromebook "
         (String.append (gen_name rule) " iGPU spoofing") |}.

(** The graphics resolver on one GPU entry: Intel, integrated, and a row of
    the generation table matches its generation identifier. *)
Definition resolve_gpu (gpu_props : list (string * pyval)) : option igpu_spoof :=
  let device_id := field gpu_props "Device ID" "" in
  if contains "Intel" (field gpu_props "Manufacturer" "")
     && contains "Integrated" (field gpu_props "Device Type" "")
  then option_map (entry_of_rule (PStr device_id))
         (first_rule (generation_id device_id))
  else None.

(** The matching predicate of Rule B on one device entry. *)
Definition device_known (dataset : list (string * list string))
    (device_props : list (string * pyval)) : bool :=
  match dict_lookup (field device_props "Device ID" "") dataset with
  | Some subsystems => str_mem (field device_props "Subsystem ID" "") subsystems
  | None => false
  end.

(** The platform detector as a boolean function of the views. *)
Definition detect (dataset : list (string * list string)) (hardware_report : pyval)
  : bool :=
  contains "GOOGLE" (upper (motherboard_name hardware_report))
  || existsb (fun kv => device_known dataset (props_of (snd kv)))
       (section hardware_report "System Devices").

(** The device enumerator: the matching devices, in the order of the record. *)
Definition enumerate_matches (dataset : list (string * list string))
    (items : list (string * pyval)) : list matched_device :=
  map (fun kv =>
         {| dev_name := fst kv;
            dev_device_id := PStr (field (props_of (snd kv)) "Device ID" "");
            dev_subsystem_id := PStr (field (props_of (snd kv)) "Subsystem ID" "") |})
      (filter (fun kv => device_known dataset (props_of (snd kv))) items).

(** The processor resolver as a function of the processor name and codename. *)
Definition resolve_cpu (cpu_name cpu_codename : string) : cpu_spoof :=
  if contains "Celeron" cpu_name || contains "Pentium" cpu_name then
    {| needs_spoofing := true;
       original_cpu := PStr cpu_name;
       cpu_reason := "Chromebook low-end CPU detected (Celeron/Pentium)";
       spoof_as := Some (fst (resolve_codename cpu_codename));
       cpuid_data := Some (snd (resolve_codename cpu_codename)) |}
  else
    {| needs_spoofing := false;
       original_cpu := PStr cpu_name;
       cpu_reason := "";
       spoof_as := None;
       cpuid_data := None |}.

Definition processor_name (hardware_report : pyval) : string :=
  field (section hardware_report "CPU") "Processor Name" "".

Definition codename (hardware_report : pyval) : string :=
  field (section hardware_report "CPU") "Codename" "".

(** The record with every absent section and field written out as the
    empty default: an empty mapping, an empty string. *)
Definition fill_fields (fields : list string) (props : list (string * pyval))
  : pyval :=
  PDict (map (fun k => (k, PStr (field props k ""))) fields).

Definition fill_entries (fields : list string) (items : list (string * pyval))
  : pyval :=
  PDict (map (fun kv => (fst kv, fill_fields fields (props_of (snd kv)))) items).

Definition fill_defaults (hardware_report : pyval) : pyval :=
  PDict
    [ ("Motherboard", fill_fields ["Name"] (section hardware_report "Motherboard"));
      ("System Devices",
        fill_entries device_fields (section hardware_report "System Devices"));
      ("GPU", fill_entries gpu_fields (section hardware_report "GPU"));
      ("CPU", fill_fields cpu_fields (section hardware_report "CPU")) ].

(** The loop of the graphics resolver as a fold over the GPU entries. *)
Definition igpu_fold (items : list (string * pyval))
    (spoof_config : list (string * igpu_spoof)) : list (string * igpu_spoof) :=
  fold_left
    (fun acc kv =>
       match resolve_gpu (props_of (snd kv)) with
       | Some e => dict_set (fst kv) e acc
       | None => acc
       end)
    items spoof_config.

(** ** Example records *)

Definition example_ids : list (string * list string) :=
  [ ("8086-9D21", ["1AE0-006B"; "1AE0-C094"]) ].

Definition example_chromebook : pyval :=
  PDict
    [ ("Motherboard", PDict [("Name", PStr "Google Eve")]);
      ("System Devices",
        PDict [("PMC", PDict [("Device ID", PStr "8086-9D21");
                              ("Subsystem ID", PStr "1AE0-006B")])]);
      ("GPU",
        PDict [("Intel HD Graphics 615",
                 PDict [("Manufacturer", PStr "Intel");
                        ("Device ID", PStr "8086-591E");
                        ("Device Type", PStr "Integrated GPU")])]);
      ("CPU", PDict [("Processor Name", PStr "Intel Celeron N4020");
                     ("Codename", PStr "Gemini Lake")]) ].

Definition example_laptop : pyval :=
  PDict
    [ ("Motherboard", PDict [("Name", PStr "LENOVO 20KH")]);
      ("CPU", PDict [("Processor Name", PStr "Intel Core i7-1065G7");
                     ("Codename", PStr "Ice Lake")]) ].

(** No [Motherboard] section; recognised through its device only. *)
Definition example_nameless : pyval :=
  PDict
    [ ("System Devices",
        PDict [("PMC", PDict [("Device ID", PStr "8086-9D21");
                              ("Subsystem ID", PStr "1AE0-006B")])]) ].

Definition example_version : pyval := PStr "23.0.0".

(** A record without any section. *)
Definition example_bare : pyval := PDict [].

(** ** [print_chromebook_detection_info] *)

(** What the method sends out, in order.  [self.utils] belongs to
    [Scripts/utils.py]: a call to it is recorded, not interpreted. *)
Inductive output : Type :=
| Head (title : string)
| Print (line : string)
| RequestInput (prompt : string).

Definition is_print (o : output) : bool :=
  match o with
  | Print _ => true
  | _ => false
  end.

(** [str(idx)] for a non-negative integer. *)
Definition decimal (idx : nat) : string :=
  NilEmpty.string_of_uint (Nat.to_uint idx).

(** The [for idx, recommendation in enumerate(..., idx)] loop. *)
Fixpoint recommendation_lines (idx : nat) (recommendations : list string)
  : list output :=
  match recommendations with
  | [] => []
  | recommendation :: rest =>
      Print (String.concat "" ["  "; decimal idx; ". "; recommendation])
      :: recommendation_lines (S idx) rest
  end.

Section Printer.

Variable ChromebookIDs : list (string * list string).

(** [str] of a dictionary, which [format] would print for a value that is
    not a string; its text is left open. *)
Variable dict_repr : list (string * pyval) -> string.

(** ["{}".format(v)] *)
Definition py_format (v : pyval) : string :=
  match v with
  | PStr s => s
  | PNone => "None"
  | PDict d => dict_repr d
  end.

Definition device_line (device : matched_device) : output :=
  Print (String.concat ""
           ["  - "; dev_name device;
            " (Device ID: "; py_format (dev_device_id device);
            ", Subsystem ID: "; py_format (dev_subsystem_id device); ")"]).

Definition gpu_lines (entry : string * igpu_spoof) : list output :=
  [ Print (String.append "  GPU: " (fst entry));
    Print (String.append "    Original Device ID: "
             (py_format (original_device_id (snd entry))));
    Print (String.append "    Spoofed Device ID: " (spoofed_device_id (snd entry)));
    Print (String.append "    Framebuffer ID: " (ig_platform_id (snd entry)));
    Print (String.append "    Reason: " (igpu_reason (snd entry))) ].

(** The block on the processor: what it prints, and the [KeyError] that
    ends it when [needs_spoofing] holds without a [spoof_as] key. *)
Definition cpu_block (cpu_spoofing : option cpu_spoof)
  : list output * option pyexn :=
  match cpu_spoofing with
  | None => ([], None)
  | Some c =>
      if needs_spoofing c then
        match spoof_as c with
        | Some model =>
            ([ Print "CPU Spoofing:";
               Print (String.append "  Original: " (py_format (original_cpu c)));
               Print (String.append "  Will spoof as: " model);
               Print (String.append "  Reason: " (cpu_reason c));
               Print "" ], None)
        | None =>
            ([ Print "CPU Spoofing:";
               Print (String.append "  Original: " (py_format (original_cpu c))) ],
             Some KeyError)
        end
      else ([], None)
  end.

(** The method returns nothing: its result here is what it has sent out
    and the exception, if any, that ended it.  The check mark of the second
    line, the one character of the source outside ASCII, stands as its
    UTF-8 bytes. *)
Definition print_chromebook_detection_info (hardware_report macos_version : pyval)
  : list output * option pyexn :=
  match generate_chromebook_report ChromebookIDs hardware_report macos_version with
  | Raise e => ([], Some e)
  | Ok report =>
      if negb (rep_is_chromebook report) then ([], None)
      else
        let info := rep_chromebook_info report in
        let out :=
          [ Head "Chromebook Detection";
            Print "";
            Print "✓ Chromebook hardware detected!";
            Print "";
            Print (String.append "Motherboard: " (py_format (info_motherboard info))) ] in
        let out :=
          if truthy (info_chromebook_devices info) then
            out ++ [Print ""; Print "Chromebook-specific devices found:"]
                ++ map device_line (info_chromebook_devices info)
          else out in
        let out := out ++ [Print ""; Print "Spoofing Configuration:"; Print ""] in
        match cpu_block (rep_cpu_spoofing report) with
        | (lines, Some e) => (out ++ lines, Some e)
        | (lines, None) =>
            let out := out ++ lines in
            let out :=
              if truthy (rep_igpu_spoofing report) then
                out ++ [Print "iGPU Spoofing:"]
                    ++ flat_map gpu_lines (rep_igpu_spoofing report)
                    ++ [Print ""]
              else out in
            let out :=
              if truthy (rep_recommendations report) then
                out ++ [Print "Recommendations:"]
                    ++ recommendation_lines 1 (rep_recommendations report)
                    ++ [Print ""]
              else out in
            (out ++ [RequestInput "Press Enter to continue..."], None)
        end
  end.

End Printer.

(** The entries of the graphics mapping, one for each GPU the resolver
    substitutes, in the order of the record. *)
Definition igpu_entries (items : list (string * pyval)) : list (string * igpu_spoof) :=
  flat_map
    (fun kv =>
       match resolve_gpu (props_of (snd kv)) with
       | Some e => [(fst kv, e)]
       | None => []
       end)
    items.

(** A dataset that lists everything another one lists. *)
Definition dataset_extends (larger smaller : list (string * list string)) : Prop :=
  forall device_id subsystems,
    dict_lookup device_id smaller = Some subsystems ->
    exists subsystems',
      dict_lookup device_id larger = Some subsystems' /\
      incl subsystems subsystems'.

Definition example_repr (d : list (string * pyval)) : string := "{...}".

(** A GPU entry that passes the manufacturer and device-type tests. *)
Definition intel_igpu (device_id : string) : pyval :=
  PDict [ ("Manufacturer", PStr "Intel");
          ("Device ID", PStr device_id);
          ("Device Type", PStr "Integrated GPU") ].

(** An output that opens with the header and goes on with prints only. *)
Definition headed_prints (title : string) (out : list output) : Prop :=
  exists body, out = Head title :: body /\ forallb is_print body = true.

(** The recommendations of a detected platform, from the two resolvers. *)
Definition recommendations_for (igpu : list (string * igpu_spoof)) (cpu : cpu_spoof)
  : list string :=
  [quirk_note]
  ++ (if truthy igpu then [igpu_note] else [])
  ++ (if needs_spoofing cpu
      then [cpu_note (match spoof_as cpu with
                      | Some model => model
                      | None => "supported model"
                      end)]
      else [])
  ++ [firmware_note; acpi_note].

(** * Properties *)

(** ** Strings *)

Lemma str_mem_In (s : string) (l : list string) :
  str_mem s l = true <-> In s l.
Proof.
  unfold str_mem. rewrite existsb_exists. split.
  - intros [x [Hin Heq]]. apply String.eqb_eq in Heq. now subst.
  - intros Hin. exists s. split; [assumption | apply String.eqb_refl].
Qed.

Lemma str_mem_false (s : string) (l : list string) :
  str_mem s l = false <-> ~ In s l.
Proof.
  rewrite <- str_mem_In. destruct (str_mem s l); split; congruence.
Qed.

Lemma prefix_append (n s : string) :
  String.prefix n s = true <-> exists post, s = String.append n post.
Proof.
  revert n. induction s as [| c s IH]; intros n.
  - destruct n as [| a n]; simpl.
    + split; [intros _; now exists EmptyString | reflexivity].
    + split; [discriminate | intros [post H]; discriminate].
  - destruct n as [| a n]; simpl.
    + split; [intros _; now exists (String c s) | reflexivity].
    + destruct (ascii_dec a c) as [-> | Hne].
      * rewrite IH. split; intros [post H]; exists post.
        -- now rewrite H.
        -- now injection H.
      * split; [discriminate | intros [post H]; injection H; congruence].
Qed.

Lemma contains_empty (n : string) :
  contains n EmptyString = String.prefix n EmptyString.
Proof.
  unfold contains. apply orb_false_r.
Qed.

Lemma contains_cons (n : string) (c : ascii) (s : string) :
  contains n (String c s) = String.prefix n (String c s) || contains n s.
Proof.
  reflexivity.
Qed.

Lemma contains_append (n s : string) :
  contains n s = true <->
  exists pre post, s = String.append pre (String.append n post).
Proof.
  induction s as [| c s IH].
  - rewrite contains_empty, prefix_append. split.
    + intros [post H]. now exists EmptyString, post.
    + intros [pre [post H]]. destruct pre; [now exists post | discriminate].
  - rewrite contains_cons, orb_true_iff, prefix_append, IH. split.
    + intros [[post H] | [pre [post H]]].
      * now exists EmptyString, post.
      * exists (String c pre), post. simpl. now rewrite H.
    + intros [pre [post H]]. destruct pre as [| a pre]; simpl in H.
      * left. now exists post.
      * right. injection H as _ H. now exists pre, post.
Qed.

Lemma upper_append (a b : string) :
  upper (String.append a b) = String.append (upper a) (upper b).
Proof.
  induction a as [| c a IH]; simpl; [reflexivity | now rewrite IH].
Qed.

(** A split of [upper s] comes from a split of [s]. *)
Lemma upper_split (s a b : string) :
  upper s = String.append a b ->
  exists a' b', s = String.append a' b' /\ upper a' = a /\ upper b' = b.
Proof.
  revert s. induction a as [| c a IH]; intros s H; simpl in H.
  - now exists EmptyString, s.
  - destruct s as [| d s]; simpl in H; [discriminate |].
    injection H as Hc Hs. destruct (IH s Hs) as [a' [b' [-> [Ha Hb]]]].
    exists (String d a'), b'. simpl. now rewrite Hc, Ha, Hb.
Qed.

(** The vendor test of the source is a case-insensitive substring test. *)
Lemma google_in_upper (name : string) :
  contains "GOOGLE" (upper name) = true <->
  case_insensitive_substring vendor_name name.
Proof.
  unfold case_insensitive_substring. rewrite contains_append. split.
  - intros [pre [post H]].
    destruct (upper_split _ _ _ H) as [pre' [rest [-> [_ Hrest]]]].
    destruct (upper_split _ _ _ Hrest) as [mid [post' [-> [Hmid _]]]].
    now exists pre', mid, post'.
  - intros [pre [mid [post [-> Hmid]]]].
    exists (upper pre), (upper post).
    now rewrite !upper_append, Hmid.
Qed.

(** Dropping [n] characters leaves what follows the first [n]. *)
Lemma str_drop_append (n : nat) (s : string) :
  n <= String.length s ->
  exists head,
    String.length head = n /\ s = String.append head (str_drop n s).
Proof.
  revert s. induction n as [| n IH]; intros s Hn.
  - now exists EmptyString.
  - destruct s as [| c s]; simpl in Hn; [lia |].
    destruct (IH s) as [head [Hlen Hs]]; [lia |].
    exists (String c head). simpl. split; [now rewrite Hlen | now rewrite <- Hs].
Qed.

(** ** Dictionaries *)

Lemma dict_lookup_set_same {A : Type} (k : string) (v : A) (d : list (string * A)) :
  dict_lookup k (dict_set k v d) = Some v.
Proof.
  induction d as [| [k' v'] d IH]; simpl.
  - now rewrite String.eqb_refl.
  - destruct (String.eqb k k') eqn:E; simpl; rewrite E; [reflexivity | exact IH].
Qed.

Lemma dict_lookup_set_other {A : Type} (k k' : string) (v : A)
    (d : list (string * A)) :
  k <> k' -> dict_lookup k' (dict_set k v d) = dict_lookup k' d.
Proof.
  intros Hne. induction d as [| [k0 v0] d IH]; simpl.
  - apply String.eqb_neq in Hne. now rewrite String.eqb_sym, Hne.
  - destruct (String.eqb k k0) eqn:E; simpl.
    + apply String.eqb_eq in E. subst k0.
      apply String.eqb_neq in Hne. now rewrite String.eqb_sym, Hne.
    + now rewrite IH.
Qed.

Lemma dict_lookup_mem {A : Type} (k : string) (d : list (string * A)) :
  str_mem k (map fst d) = true <-> exists v, dict_lookup k d = Some v.
Proof.
  induction d as [| [k' v'] d IH]; simpl.
  - split; [discriminate | intros [v H]; discriminate].
  - destruct (String.eqb k k'); simpl; [| exact IH].
    split; [intros _; now exists v' | reflexivity].
Qed.

(** ** Reading a well-formed report *)

Lemma get_section (r : pyval) (k : string) :
  well_formed r = true ->
  In k ["Motherboard"; "System Devices"; "GPU"; "CPU"] ->
  py_get r k (PDict []) = Ok (PDict (section r k)).
Proof.
  destruct r as [| s | d]; try discriminate.
  unfold well_formed, py_get, section. intros Hwf Hk.
  apply andb_true_iff in Hwf as [Hwf Hcpu].
  apply andb_true_iff in Hwf as [Hwf Hgpu].
  apply andb_true_iff in Hwf as [Hmb Hdev].
  destruct Hk as [<- | [<- | [<- | [<- | []]]]];
    match goal with
    | |- context [dict_lookup ?k d] =>
        destruct (dict_lookup k d) as [[| s | d'] |]
    end; simpl in *; try discriminate; reflexivity.
Qed.

Lemma get_field (fields : list string) (props : pyval) (k default : string) :
  fields_are_str fields props = true ->
  In k fields ->
  py_get props k (PStr default) = Ok (PStr (field (props_of props) k default)).
Proof.
  destruct props as [| s | d]; try discriminate.
  unfold fields_are_str. rewrite forallb_forall. intros H Hk.
  specialize (H k Hk). unfold py_get, field, props_of.
  destruct (dict_lookup k d) as [[| s | d'] |]; simpl in H;
    try discriminate; reflexivity.
Qed.

(** The sections of a well-formed report have the shape [well_formed]
    asks for, also when they are absent and read as empty. *)
Lemma section_shapes (r : pyval) :
  well_formed r = true ->
  fields_are_str ["Name"] (PDict (section r "Motherboard")) = true /\
  entries_ok device_fields (PDict (section r "System Devices")) = true /\
  entries_ok gpu_fields (PDict (section r "GPU")) = true /\
  fields_are_str cpu_fields (PDict (section r "CPU")) = true.
Proof.
  destruct r as [| s | d]; try discriminate.
  unfold well_formed, section. intros Hwf.
  apply andb_true_iff in Hwf as [Hwf Hcpu].
  apply andb_true_iff in Hwf as [Hwf Hgpu].
  apply andb_true_iff in Hwf as [Hmb Hdev].
  repeat split;
    match goal with
    | |- context [dict_lookup ?k d] =>
        destruct (dict_lookup k d) as [[| s | d'] |]
    end; simpl in *; try discriminate; assumption || reflexivity.
Qed.

(** ** The rule chains of the source against the tables *)

Lemma igpu_chain_table (device_id : pyval) (short : string) :
  igpu_chain device_id (PStr short)
  = Ok (option_map (entry_of_rule device_id) (first_rule short)).
Proof.
  unfold igpu_chain, first_rule, generation_table, py_startswith.
  cbn [bind find]. unfold rule_matches. cbn [gen_prefixes].
  repeat match goal with
         | |- context [starts_with_any short ?l] =>
             destruct (starts_with_any short l); cbn [bind find]
         end; reflexivity.
Qed.

Lemma cpu_chain_table (cpu_codename : string) :
  cpu_chain (PStr cpu_codename) = Ok (resolve_codename cpu_codename).
Proof.
  unfold cpu_chain, resolve_codename, codename_table, py_in.
  cbn [bind find]. unfold codename_matches. cbn [code_substrings existsb].
  repeat match goal with
         | |- context [contains ?n cpu_codename] =>
             destruct (contains n cpu_codename);
             cbn [bind find orb code_model code_payload]
         end; reflexivity.
Qed.

Lemma device_id_short_str (device_id : string) :
  device_id_short_of (PStr device_id) = Ok (PStr (generation_id device_id)).
Proof.
  unfold device_id_short_of, generation_id, py_len, py_slice_from, bind.
  now destruct (9 <=? String.length device_id)%nat.
Qed.

Lemma igpu_body_wf (gpu_props : pyval) :
  fields_are_str gpu_fields gpu_props = true ->
  igpu_body gpu_props = Ok (resolve_gpu (props_of gpu_props)).
Proof.
  intros Hwf. unfold igpu_body, resolve_gpu.
  rewrite (get_field gpu_fields), (get_field gpu_fields), (get_field gpu_fields);
    try assumption; try (simpl; tauto).
  cbn [bind py_in].
  destruct (contains "Intel" _); cbn [negb bind andb]; [| reflexivity].
  destruct (contains "Integrated" _); cbn [negb bind]; [| reflexivity].
  rewrite device_id_short_str. cbn [bind]. apply igpu_chain_table.
Qed.

Lemma spoof_cpu_wf (r : pyval) :
  well_formed r = true ->
  spoof_cpu_for_chromebook r = Ok (resolve_cpu (processor_name r) (codename r)).
Proof.
  intros Hwf. unfold spoof_cpu_for_chromebook, resolve_cpu, processor_name, codename.
  destruct (section_shapes r Hwf) as [_ [_ [_ Hcpu]]].
  rewrite (get_section r "CPU" Hwf) by (simpl; tauto). cbn [bind].
  rewrite (get_field cpu_fields), (get_field cpu_fields);
    try assumption; try (simpl; tauto).
  cbn [bind py_in props_of].
  destruct (contains "Celeron" _); cbn [bind orb].
  - now rewrite cpu_chain_table.
  - destruct (contains "Pentium" _); cbn [bind]; [| reflexivity].
    now rewrite cpu_chain_table.
Qed.

(** ** The loop of the graphics resolver *)

Lemma entries_ok_items (fields : list string) (items : list (string * pyval)) :
  entries_ok fields (PDict items) = true ->
  distinct (map fst items) = true /\
  forall k v, In (k, v) items -> fields_are_str fields v = true.
Proof.
  unfold entries_ok. intros H. apply andb_true_iff in H as [Hd Hf].
  split; [assumption |]. intros k v Hin.
  rewrite forallb_forall in Hf. exact (Hf (k, v) Hin).
Qed.

(** After the loop a GPU of the section is bound to what [resolve_gpu]
    gives for it (or keeps its earlier binding when that is nothing), and
    every other name keeps its binding. *)
Lemma igpu_loop_lookup (items : list (string * pyval)) :
  distinct (map fst items) = true ->
  (forall k v, In (k, v) items -> fields_are_str gpu_fields v = true) ->
  forall spoof_config,
  exists final,
    igpu_loop items spoof_config = Ok final /\
    (forall gpu_name gpu_props,
        In (gpu_name, gpu_props) items ->
        dict_lookup gpu_name final
        = match resolve_gpu (props_of gpu_props) with
          | Some e => Some e
          | None => dict_lookup gpu_name spoof_config
          end) /\
    (forall other,
        ~ In other (map fst items) ->
        dict_lookup other final = dict_lookup other spoof_config).
Proof.
  induction items as [| [name props] rest IH]; intros Hd Hwf spoof_config.
  - exists spoof_config. simpl. repeat split; intros; tauto.
  - simpl in Hd. apply andb_true_iff in Hd as [Hfresh Hd].
    apply negb_true_iff, str_mem_false in Hfresh.
    assert (Hrest : forall k v, In (k, v) rest -> fields_are_str gpu_fields v = true)
      by (intros k v Hin; apply (Hwf k v); now right).
    cbn [igpu_loop]. rewrite (igpu_body_wf props) by (apply (Hwf name); now left).
    cbn [bind].
    destruct (resolve_gpu (props_of props)) as [e |] eqn:Hres.
    + destruct (IH Hd Hrest (dict_set name e spoof_config))
        as [final [Hrun [Hin Hout]]].
      exists final. split; [exact Hrun |]. split.
      * intros gpu_name gpu_props [Heq | Hmem].
        -- injection Heq as <- <-. rewrite Hres, (Hout name Hfresh).
           apply dict_lookup_set_same.
        -- rewrite (Hin _ _ Hmem).
           destruct (resolve_gpu (props_of gpu_props)); [reflexivity |].
           apply dict_lookup_set_other. intros ->.
           apply Hfresh. now apply (in_map fst) in Hmem.
      * intros other Hother. simpl in Hother.
        rewrite (Hout other) by tauto.
        apply dict_lookup_set_other. intros ->. tauto.
    + destruct (IH Hd Hrest spoof_config) as [final [Hrun [Hin Hout]]].
      exists final. split; [exact Hrun |]. split.
      * intros gpu_name gpu_props [Heq | Hmem].
        -- injection Heq as <- <-. rewrite Hres. now apply Hout.
        -- now apply Hin.
      * intros other Hother. simpl in Hother. apply Hout. tauto.
Qed.

Lemma spoof_igpu_wf (r macos_version : pyval) :
  well_formed r = true ->
  exists spoof_config,
    spoof_igpu_for_chromebook r macos_version = Ok spoof_config /\
    forall gpu_name gpu_props,
      In (gpu_name, gpu_props) (section r "GPU") ->
      dict_lookup gpu_name spoof_config = resolve_gpu (props_of gpu_props).
Proof.
  intros Hwf. unfold spoof_igpu_for_chromebook.
  rewrite (get_section r "GPU" Hwf) by (simpl; tauto). cbn [bind py_items].
  destruct (section_shapes r Hwf) as [_ [_ [Hgpu _]]].
  apply entries_ok_items in Hgpu as [Hd Hf].
  destruct (igpu_loop_lookup _ Hd Hf []) as [final [Hrun [Hin _]]].
  exists final. split; [exact Hrun |].
  intros gpu_name gpu_props Hmem. rewrite (Hin _ _ Hmem).
  now destruct (resolve_gpu (props_of gpu_props)).
Qed.

(** ** Detection and the report on a well-formed record *)

Section Detection.

Variable ChromebookIDs : list (string * list string).

Lemma known_device_str (device_id subsystem_id : string) :
  known_device ChromebookIDs (PStr device_id) (PStr subsystem_id)
  = Ok (match dict_lookup device_id ChromebookIDs with
        | Some subsystems => str_mem subsystem_id subsystems
        | None => false
        end).
Proof.
  unfold known_device, ids_contains, ids_getitem, subsystems_contain.
  cbn [bind].
  destruct (dict_lookup device_id ChromebookIDs) as [subsystems |] eqn:E.
  - assert (H : str_mem device_id (map fst ChromebookIDs) = true)
      by (apply dict_lookup_mem; now exists subsystems).
    now rewrite H.
  - destruct (str_mem device_id (map fst ChromebookIDs)) eqn:M; [| reflexivity].
    apply dict_lookup_mem in M as [v Hv]. congruence.
Qed.

Lemma is_chromebook_loop_wf (items : list (string * pyval)) :
  (forall k v, In (k, v) items -> fields_are_str device_fields v = true) ->
  is_chromebook_loop ChromebookIDs items
  = Ok (existsb (fun kv => device_known ChromebookIDs (props_of (snd kv))) items).
Proof.
  induction items as [| [name props] rest IH]; intros Hwf; [reflexivity |].
  cbn [is_chromebook_loop existsb snd].
  rewrite (get_field device_fields), (get_field device_fields);
    try (apply (Hwf name); now left); try (simpl; tauto).
  cbn [bind]. rewrite known_device_str. cbn [bind]. fold (device_known ChromebookIDs (props_of props)).
  destruct (device_known ChromebookIDs (props_of props)); [reflexivity |].
  apply IH. intros k v Hin. apply (Hwf k v). now right.
Qed.

Lemma chromebook_devices_loop_wf (items : list (string * pyval)) :
  (forall k v, In (k, v) items -> fields_are_str device_fields v = true) ->
  forall found,
    chromebook_devices_loop ChromebookIDs items found
    = Ok (found ++ enumerate_matches ChromebookIDs items).
Proof.
  unfold enumerate_matches.
  induction items as [| [name props] rest IH]; intros Hwf found.
  - simpl. now rewrite app_nil_r.
  - cbn [chromebook_devices_loop filter snd].
    rewrite (get_field device_fields), (get_field device_fields);
      try (apply (Hwf name); now left); try (simpl; tauto).
    cbn [bind]. rewrite known_device_str. cbn [bind].
    fold (device_known ChromebookIDs (props_of props)).
    assert (Hrest : forall k v, In (k, v) rest -> fields_are_str device_fields v = true)
      by (intros k v Hin; apply (Hwf k v); now right).
    destruct (device_known ChromebookIDs (props_of props)).
    + rewrite (IH Hrest). cbn [map fst snd]. now rewrite <- app_assoc.
    + apply (IH Hrest).
Qed.

Lemma is_chromebook_wf (r : pyval) :
  well_formed r = true ->
  is_chromebook ChromebookIDs r = Ok (detect ChromebookIDs r).
Proof.
  intros Hwf. unfold is_chromebook, detect, motherboard_name.
  destruct (section_shapes r Hwf) as [Hmb [Hdev _]].
  rewrite (get_section r "Motherboard" Hwf) by (simpl; tauto). cbn [bind].
  rewrite (get_field ["Name"]) by (assumption || (simpl; tauto)).
  cbn [bind py_upper props_of].
  destruct (contains "GOOGLE" _); [reflexivity |]. cbn [orb].
  rewrite (get_section r "System Devices" Hwf) by (simpl; tauto).
  cbn [bind py_items].
  apply is_chromebook_loop_wf. now apply entries_ok_items in Hdev.
Qed.

Lemma get_chromebook_info_wf (r : pyval) :
  well_formed r = true ->
  get_chromebook_info ChromebookIDs r
  = Ok {| info_is_chromebook := detect ChromebookIDs r;
          info_motherboard :=
            PStr (field (section r "Motherboard") "Name" "Unknown");
          info_chromebook_devices :=
            enumerate_matches ChromebookIDs (section r "System Devices") |}.
Proof.
  intros Hwf. unfold get_chromebook_info.
  destruct (section_shapes r Hwf) as [Hmb [Hdev _]].
  rewrite (is_chromebook_wf r Hwf). cbn [bind].
  rewrite (get_section r "Motherboard" Hwf) by (simpl; tauto). cbn [bind].
  rewrite (get_field ["Name"]) by (assumption || (simpl; tauto)).
  cbn [bind props_of].
  rewrite (get_section r "System Devices" Hwf) by (simpl; tauto).
  cbn [bind py_items].
  rewrite chromebook_devices_loop_wf by (now apply entries_ok_items in Hdev).
  reflexivity.
Qed.

(** The recommendation list of a detected platform. *)
Lemma report_detected (r macos_version : pyval) :
  well_formed r = true ->
  detect ChromebookIDs r = true ->
  exists info igpu,
    get_chromebook_info ChromebookIDs r = Ok info /\
    spoof_igpu_for_chromebook r macos_version = Ok igpu /\
    generate_chromebook_report ChromebookIDs r macos_version
    = Ok {| rep_is_chromebook := true;
            rep_chromebook_info := info;
            rep_igpu_spoofing := igpu;
            rep_cpu_spoofing := Some (resolve_cpu (processor_name r) (codename r));
            rep_recommendations :=
              [quirk_note]
              ++ (if truthy igpu then [igpu_note] else [])
              ++ (if needs_spoofing (resolve_cpu (processor_name r) (codename r))
                  then [cpu_note (fst (resolve_codename (codename r)))]
                  else [])
              ++ [firmware_note; acpi_note] |}.
Proof.
  intros Hwf Hdet.
  destruct (spoof_igpu_wf r macos_version Hwf) as [igpu [Higpu _]].
  eexists. exists igpu. split; [apply (get_chromebook_info_wf r Hwf) |].
  split; [exact Higpu |].
  unfold generate_chromebook_report.
  rewrite (is_chromebook_wf r Hwf), (get_chromebook_info_wf r Hwf), Hdet.
  cbn [bind]. rewrite Higpu. cbn [bind].
  rewrite (spoof_cpu_wf r Hwf). cbn [bind].
  unfold resolve_cpu.
  destruct (contains "Celeron" (processor_name r) || contains "Pentium" (processor_name r));
    destruct (truthy igpu); reflexivity.
Qed.

Lemma report_not_detected (r macos_version : pyval) :
  well_formed r = true ->
  detect ChromebookIDs r = false ->
  exists info,
    get_chromebook_info ChromebookIDs r = Ok info /\
    generate_chromebook_report ChromebookIDs r macos_version
    = Ok {| rep_is_chromebook := false;
            rep_chromebook_info := info;
            rep_igpu_spoofing := [];
            rep_cpu_spoofing := None;
            rep_recommendations := [] |}.
Proof.
  intros Hwf Hdet. eexists. split; [apply (get_chromebook_info_wf r Hwf) |].
  unfold generate_chromebook_report.
  rewrite (is_chromebook_wf r Hwf), (get_chromebook_info_wf r Hwf), Hdet.
  reflexivity.
Qed.

End Detection.

(** * The graphics resolver *)

Lemma first_rule_of_prefix (rule : generation_rule) (prefix : string) :
  In rule generation_table ->
  In prefix (gen_prefixes rule) ->
  first_rule prefix = Some rule.
Proof.
  unfold generation_table. intros Hrule Hprefix.
  repeat (destruct Hrule as [<- | Hrule];
          [cbn [gen_prefixes] in Hprefix;
           repeat (destruct Hprefix as [<- | Hprefix]; [reflexivity |]);
           destruct Hprefix |]).
  destruct Hrule.
Qed.

(** C1.  On a well-formed record the graphics resolver returns a mapping
    in which a GPU of the record has an entry exactly when its manufacturer
    contains "Intel", its device type contains "Integrated" and some row of
    the generation table matches its generation identifier; the entry
    carries the substitute device identifier and the platform tag of the
    first matching row, and the original device identifier.  Each listed
    prefix selects its own row. *)
Theorem igpu_entry_iff_generation_rule (r macos_version : pyval) :
  well_formed r = true ->
  (forall rule prefix,
      In rule generation_table -> In prefix (gen_prefixes rule) ->
      first_rule prefix = Some rule) /\
  exists spoof_config,
    spoof_igpu_for_chromebook r macos_version = Ok spoof_config /\
    forall gpu_name gpu_props,
      In (gpu_name, gpu_props) (section r "GPU") ->
      let props := props_of gpu_props in
      let short := generation_id (field props "Device ID" "") in
      ((exists e, dict_lookup gpu_name spoof_config = Some e) <->
       contains "Intel" (field props "Manufacturer" "") = true /\
       contains "Integrated" (field props "Device Type" "") = true /\
       exists rule, In rule generation_table /\ rule_matches short rule = true) /\
      (forall e,
          dict_lookup gpu_name spoof_config = Some e ->
          exists rule,
            first_rule short = Some rule /\
            spoofed_device_id e = gen_device_id rule /\
            ig_platform_id e = gen_platform_tag rule /\
            original_device_id e = PStr (field props "Device ID" "")).
Proof.
  intros Hwf. split; [exact first_rule_of_prefix |].
  destruct (spoof_igpu_wf r macos_version Hwf) as [spoof_config [Hrun Hlookup]].
  exists spoof_config. split; [exact Hrun |].
  intros gpu_name gpu_props Hin props short.
  rewrite (Hlookup _ _ Hin). fold props. unfold resolve_gpu. fold short.
  destruct (contains "Intel" (field props "Manufacturer" "")),
           (contains "Integrated" (field props "Device Type" ""));
    cbn [andb].
  2-4: split; [split; [intros [e He]; discriminate | intros [? [? _]]; discriminate]
              | intros e He; discriminate].
  destruct (first_rule short) as [rule |] eqn:Hfirst; cbn [option_map].
  - unfold first_rule in Hfirst. pose proof (find_some _ _ Hfirst) as [Hmem Hmatch].
    split.
    + split; [intros _ | intros _; eexists; reflexivity].
      repeat split. now exists rule.
    + intros e He. injection He as <-. exists rule. now repeat split.
  - split.
    + split; [intros [e He]; discriminate |].
      intros [_ [_ [rule [Hmem Hmatch]]]].
      unfold first_rule in Hfirst.
      rewrite (find_none _ _ Hfirst rule Hmem) in Hmatch. discriminate.
    + intros e He. discriminate.
Qed.

Lemma igpu_entry_iff_generation_rule_witness :
  well_formed example_chromebook = true /\
  exists spoof_config,
    spoof_igpu_for_chromebook example_chromebook example_version = Ok spoof_config /\
    exists e,
      dict_lookup "Intel HD Graphics 615" spoof_config = Some e /\
      spoofed_device_id e = "16590000" /\ ig_platform_id e = "00001659".
Proof.
  split; [reflexivity |].
  destruct (igpu_entry_iff_generation_rule example_chromebook example_version eq_refl)
    as [_ [spoof_config [Hrun Hgpu]]].
  exists spoof_config. split; [exact Hrun |].
  destruct (Hgpu "Intel HD Graphics 615"
              (PDict [("Manufacturer", PStr "Intel");
                      ("Device ID", PStr "8086-591E");
                      ("Device Type", PStr "Integrated GPU")]))
    as [[_ Hsome] Hvalues].
  - simpl. left. reflexivity.
  - destruct Hsome as [e He].
    + split; [reflexivity |]. split; [reflexivity |].
      eexists. split; [right; right; right; left; reflexivity | reflexivity].
    + exists e. split; [exact He |].
      destruct (Hvalues e He) as [rule [Hfirst [Hid [Htag _]]]].
      vm_compute in Hfirst. injection Hfirst as <-.
      split; assumption.
Defined.

(** C2, as the specification words it, fails on an identifier longer than nine
    characters: the source drops the first five characters and keeps all
    the rest, which is then longer than four characters. *)
Lemma short_id_is_not_trailing_four :
  ~ (forall device_id : string,
        9 <= String.length device_id ->
        device_id_short_of (PStr device_id) = Ok (PStr (trailing 4 device_id))).
Proof.
  intros H. specialize (H "8086-0A16X").
  cbn [String.length] in H. specialize (H (Nat.le_succ_diag_r 9)).
  vm_compute in H. discriminate.
Qed.

(** C2, amended.  The generation identifier of a device identifier of at
    least nine characters is the identifier without its first five
    characters, which is its trailing four characters when the length is
    exactly nine; a shorter identifier is used unmodified. *)
Theorem device_id_short_drops_vendor_part (device_id : string) :
  (9 <= String.length device_id ->
   device_id_short_of (PStr device_id) = Ok (PStr (str_drop 5 device_id)) /\
   exists vendor,
     String.length vendor = 5 /\
     device_id = String.append vendor (str_drop 5 device_id)) /\
  (String.length device_id = 9 ->
   device_id_short_of (PStr device_id) = Ok (PStr (trailing 4 device_id))) /\
  (String.length device_id < 9 ->
   device_id_short_of (PStr device_id) = Ok (PStr device_id)).
Proof.
  rewrite device_id_short_str. unfold generation_id, trailing.
  repeat split.
  - apply Nat.leb_le in H. now rewrite H.
  - apply str_drop_append. lia.
  - intros Hlen. now rewrite Hlen.
  - intros Hlen. apply Nat.leb_gt in Hlen. now rewrite Hlen.
Qed.

Lemma device_id_short_drops_vendor_part_witness :
  device_id_short_of (PStr "8086-0A16X") = Ok (PStr "0A16X") /\
  device_id_short_of (PStr "8086-0A16") = Ok (PStr "0A16") /\
  device_id_short_of (PStr "0A16") = Ok (PStr "0A16").
Proof.
  split; [| split].
  - apply (proj1 (device_id_short_drops_vendor_part "8086-0A16X")).
    cbn [String.length]. lia.
  - apply (proj1 (proj2 (device_id_short_drops_vendor_part "8086-0A16"))).
    reflexivity.
  - apply (proj2 (proj2 (device_id_short_drops_vendor_part "0A16"))).
    cbn [String.length]. lia.
Defined.

(** * The processor resolver *)

(** C3, as the specification words it, fails on the reason string: for a
    Celeron the source gives its own text. *)
Lemma cpu_reason_is_not_the_specified_text :
  exists c,
    spoof_cpu_for_chromebook example_chromebook = Ok c /\
    contains "Celeron" (processor_name example_chromebook) = true /\
    needs_spoofing c = true /\
    cpu_reason c <> "low-end processor family detected".
Proof.
  eexists. split; [reflexivity |]. repeat split. discriminate.
Qed.

(** C3, amended.  On a well-formed record the processor resolver keeps the
    original processor name; when the name contains neither "Celeron" nor
    "Pentium" it returns needs-substitution false with an empty reason and
    no substitute, and otherwise needs-substitution true with the reason
    "Chromebook low-end CPU detected (Celeron/Pentium)". *)
Theorem cpu_needs_spoofing_iff_low_end (r : pyval) :
  well_formed r = true ->
  exists c,
    spoof_cpu_for_chromebook r = Ok c /\
    original_cpu c = PStr (processor_name r) /\
    (contains "Celeron" (processor_name r) = false ->
     contains "Pentium" (processor_name r) = false ->
     needs_spoofing c = false /\ cpu_reason c = "" /\
     spoof_as c = None /\ cpuid_data c = None) /\
    (contains "Celeron" (processor_name r) = true \/
     contains "Pentium" (processor_name r) = true ->
     needs_spoofing c = true /\
     cpu_reason c = "Chromebook low-end CPU detected (Celeron/Pentium)").
Proof.
  intros Hwf. eexists. split; [apply (spoof_cpu_wf r Hwf) |].
  unfold resolve_cpu.
  destruct (contains "Celeron" (processor_name r)),
           (contains "Pentium" (processor_name r)); cbn [orb];
    (split; [reflexivity |]); split;
    try (intros; discriminate); try (intros _ _; repeat split);
    try (intros _; split; reflexivity).
  intros [Hc | Hp]; discriminate.
Qed.

Lemma cpu_needs_spoofing_iff_low_end_witness :
  well_formed example_laptop = true /\
  exists c,
    spoof_cpu_for_chromebook example_laptop = Ok c /\
    original_cpu c = PStr "Intel Core i7-1065G7" /\
    needs_spoofing c = false /\ cpu_reason c = "".
Proof.
  split; [reflexivity |].
  destruct (cpu_needs_spoofing_iff_low_end example_laptop eq_refl)
    as [c [Hrun [Horig [Hplain _]]]].
  exists c. split; [exact Hrun |]. split; [exact Horig |].
  destruct (Hplain eq_refl eq_refl) as [Hneeds [Hreason _]].
  split; assumption.
Defined.

(** C4.  On a well-formed record whose processor name contains "Celeron"
    or "Pentium", the substitute name and payload are those of the first
    row of the codename table one of whose substrings occurs in the
    codename, and the generic fallback when no row matches. *)
Theorem cpu_substitute_by_first_matching_codename (r : pyval) :
  well_formed r = true ->
  contains "Celeron" (processor_name r) = true \/
  contains "Pentium" (processor_name r) = true ->
  exists c,
    spoof_cpu_for_chromebook r = Ok c /\
    match find (codename_matches (codename r)) codename_table with
    | Some rule =>
        spoof_as c = Some (code_model rule) /\
        cpuid_data c = Some (code_payload rule)
    | None =>
        spoof_as c = Some "Core i5 (Generic)" /\
        cpuid_data c = Some "E3060300"
    end.
Proof.
  intros Hwf Hlow. eexists. split; [apply (spoof_cpu_wf r Hwf) |].
  unfold resolve_cpu.
  replace (contains "Celeron" (processor_name r)
           || contains "Pentium" (processor_name r)) with true
    by (symmetry; apply orb_true_iff; exact Hlow).
  unfold resolve_codename.
  destruct (find (codename_matches (codename r)) codename_table);
    split; reflexivity.
Qed.

Lemma cpu_substitute_by_first_matching_codename_witness :
  well_formed example_chromebook = true /\
  exists c,
    spoof_cpu_for_chromebook example_chromebook = Ok c /\
    spoof_as c = Some "Core i3-8100" /\ cpuid_data c = Some "EA060900".
Proof.
  split; [reflexivity |].
  destruct (cpu_substitute_by_first_matching_codename example_chromebook eq_refl
              (or_introl eq_refl))
    as [c [Hrun Hrule]].
  exists c. split; [exact Hrun |]. exact Hrule.
Defined.

(** ** Filling in the defaults *)

Lemma igpu_loop_fold (items : list (string * pyval)) :
  (forall k v, In (k, v) items -> fields_are_str gpu_fields v = true) ->
  forall spoof_config,
    igpu_loop items spoof_config = Ok (igpu_fold items spoof_config).
Proof.
  unfold igpu_fold.
  induction items as [| [name props] rest IH]; intros Hwf spoof_config;
    [reflexivity |].
  cbn [igpu_loop fold_left fst snd].
  rewrite (igpu_body_wf props) by (apply (Hwf name); now left). cbn [bind].
  assert (Hrest : forall k v, In (k, v) rest -> fields_are_str gpu_fields v = true)
    by (intros k v Hin; apply (Hwf k v); now right).
  destruct (resolve_gpu (props_of props)); apply (IH Hrest).
Qed.

Lemma spoof_igpu_fold (r macos_version : pyval) :
  well_formed r = true ->
  spoof_igpu_for_chromebook r macos_version = Ok (igpu_fold (section r "GPU") []).
Proof.
  intros Hwf. unfold spoof_igpu_for_chromebook.
  rewrite (get_section r "GPU" Hwf) by (simpl; tauto). cbn [bind py_items].
  destruct (section_shapes r Hwf) as [_ [_ [Hgpu _]]].
  apply igpu_loop_fold. now apply entries_ok_items in Hgpu.
Qed.

Lemma fill_entries_keys (fields : list string) (items : list (string * pyval)) :
  map fst (map (fun kv => (fst kv, fill_fields fields (props_of (snd kv)))) items)
  = map fst items.
Proof.
  rewrite map_map. now apply map_ext.
Qed.

Lemma fill_entries_ok (fields : list string) (items : list (string * pyval)) :
  distinct (map fst items) = true ->
  (forall props, fields_are_str fields (fill_fields fields props) = true) ->
  entries_ok fields (fill_entries fields items) = true.
Proof.
  intros Hd Hf. unfold entries_ok, fill_entries.
  rewrite fill_entries_keys, Hd. apply forallb_forall. intros kv Hin.
  apply in_map_iff in Hin as [kv' [<- _]]. apply Hf.
Qed.

Lemma fill_defaults_well_formed (r : pyval) :
  well_formed r = true -> well_formed (fill_defaults r) = true.
Proof.
  intros Hwf. destruct (section_shapes r Hwf) as [_ [Hdev [Hgpu _]]].
  apply entries_ok_items in Hdev as [Hdev _].
  apply entries_ok_items in Hgpu as [Hgpu _].
  unfold fill_defaults, well_formed.
  change (dict_lookup "Motherboard" _)
    with (Some (fill_fields ["Name"] (section r "Motherboard"))).
  change (dict_lookup "System Devices" _)
    with (Some (fill_entries device_fields (section r "System Devices"))).
  change (dict_lookup "GPU" _)
    with (Some (fill_entries gpu_fields (section r "GPU"))).
  change (dict_lookup "CPU" _)
    with (Some (fill_fields cpu_fields (section r "CPU"))).
  cbn [absent_or].
  rewrite (fill_entries_ok device_fields _ Hdev) by reflexivity.
  rewrite (fill_entries_ok gpu_fields _ Hgpu) by reflexivity.
  reflexivity.
Qed.

Lemma igpu_fold_fill (items : list (string * pyval))
    (spoof_config : list (string * igpu_spoof)) :
  igpu_fold (props_of (fill_entries gpu_fields items)) spoof_config
  = igpu_fold items spoof_config.
Proof.
  unfold igpu_fold, fill_entries, props_of. revert spoof_config.
  induction items as [| [name props] rest IH]; intros spoof_config;
    [reflexivity |].
  cbn [map fold_left fst snd]. apply IH.
Qed.

Lemma device_known_fill (dataset : list (string * list string))
    (items : list (string * pyval)) :
  existsb (fun kv => device_known dataset (props_of (snd kv)))
    (props_of (fill_entries device_fields items))
  = existsb (fun kv => device_known dataset (props_of (snd kv))) items.
Proof.
  unfold fill_entries, props_of.
  induction items as [| [name props] rest IH]; [reflexivity |].
  cbn [map existsb fst snd]. now rewrite IH.
Qed.

Lemma enumerate_matches_fill (dataset : list (string * list string))
    (items : list (string * pyval)) :
  enumerate_matches dataset
    (map (fun kv => (fst kv, fill_fields device_fields (props_of (snd kv)))) items)
  = enumerate_matches dataset items.
Proof.
  unfold enumerate_matches.
  induction items as [| [name props] rest IH]; [reflexivity |].
  cbn [map filter fst snd].
  change (device_known dataset
            (props_of (fill_fields device_fields (props_of props))))
    with (device_known dataset (props_of props)).
  destruct (device_known dataset (props_of props)); [| exact IH].
  cbn [map fst snd]. now rewrite IH.
Qed.

(** The name the diagnostic info gives to the motherboard. *)
Lemma diagnostic_name (r : pyval) :
  well_formed r = true ->
  field (section r "Motherboard") "Name" "Unknown"
  = if name_absent r then "Unknown" else motherboard_name r.
Proof.
  destruct r as [| s | d]; try discriminate.
  unfold well_formed, name_absent, motherboard_name, section, field.
  intros Hwf.
  apply andb_true_iff in Hwf as [Hwf _].
  apply andb_true_iff in Hwf as [Hwf _].
  apply andb_true_iff in Hwf as [Hmb _].
  destruct (dict_lookup "Motherboard" d) as [[| s | m] |];
    try discriminate; [| reflexivity].
  cbn [absent_or fields_are_str forallb] in Hmb.
  destruct (dict_lookup "Name" m) as [[| s | d'] |];
    try discriminate; reflexivity.
Qed.

(** * The platform detector and the report *)

Section Report.

Variable ChromebookIDs : list (string * list string).

Lemma detect_iff_rules (r : pyval) :
  detect ChromebookIDs r = true <-> rule_A r \/ rule_B ChromebookIDs r.
Proof.
  unfold detect, rule_A, rule_B.
  rewrite orb_true_iff, google_in_upper, existsb_exists.
  apply or_iff_compat_l. unfold device_known. split.
  - intros [[name props] [Hin Hknown]]. cbn [snd] in Hknown.
    destruct (dict_lookup _ ChromebookIDs) as [subsystems |] eqn:E;
      [| discriminate].
    exists name, props, subsystems. repeat split; try assumption.
    now apply str_mem_In.
  - intros [name [props [subsystems [Hin [Hids Hsub]]]]].
    exists (name, props). split; [assumption |]. cbn [snd].
    rewrite Hids. now apply str_mem_In.
Qed.

(** C5.  On a well-formed record the detector returns a boolean, which is
    true exactly when the motherboard name contains the vendor name up to
    letter case (Rule A) or some entry of System Devices has its device
    identifier in the reference dataset with its subsystem identifier in
    the associated set (Rule B); when neither rule fires it returns false. *)
Theorem is_chromebook_iff_rule_A_or_rule_B (r : pyval) :
  well_formed r = true ->
  exists detected,
    is_chromebook ChromebookIDs r = Ok detected /\
    (detected = true <-> rule_A r \/ rule_B ChromebookIDs r) /\
    (~ (rule_A r \/ rule_B ChromebookIDs r) -> detected = false).
Proof.
  intros Hwf. exists (detect ChromebookIDs r).
  split; [apply (is_chromebook_wf ChromebookIDs r Hwf) |].
  split; [apply detect_iff_rules |].
  intros Hnone. apply not_true_is_false. intros Hdet.
  apply Hnone. now apply detect_iff_rules.
Qed.

(** A detector that finds nothing has looked at every device, so the
    enumerator finds nothing either and does not fail. *)
Lemma no_device_when_not_detected (items : list (string * pyval)) :
  is_chromebook_loop ChromebookIDs items = Ok false ->
  forall found, chromebook_devices_loop ChromebookIDs items found = Ok found.
Proof.
  induction items as [| [name props] rest IH]; intros H found; [reflexivity |].
  cbn [is_chromebook_loop chromebook_devices_loop] in *.
  destruct (py_get props "Device ID" (PStr "")) as [device_id | e];
    [| discriminate].
  destruct (py_get props "Subsystem ID" (PStr "")) as [subsystem_id | e];
    [| discriminate].
  cbn [bind] in *.
  destruct (known_device ChromebookIDs device_id subsystem_id) as [[|] | e];
    try discriminate.
  cbn [bind] in *. now apply IH.
Qed.

(** C6.  When the detector returns false on a record, the report is
    produced and its graphics section, its processor section and its
    recommendation list are empty. *)
Theorem report_is_empty_when_not_detected (r macos_version : pyval) :
  is_chromebook ChromebookIDs r = Ok false ->
  exists report,
    generate_chromebook_report ChromebookIDs r macos_version = Ok report /\
    rep_is_chromebook report = false /\
    rep_igpu_spoofing report = [] /\
    rep_cpu_spoofing report = None /\
    rep_recommendations report = [].
Proof.
  intros Hdet.
  assert (Hinfo : exists info, get_chromebook_info ChromebookIDs r = Ok info).
  { unfold get_chromebook_info. rewrite Hdet. cbn [bind].
    unfold is_chromebook in Hdet.
    destruct (py_get r "Motherboard" (PDict [])) as [motherboard | e];
      [| discriminate].
    cbn [bind] in *.
    destruct motherboard as [| s | m]; try discriminate.
    cbn [py_get bind] in *.
    destruct (py_upper _) as [shouted | e]; [| discriminate].
    cbn [bind] in Hdet.
    destruct (contains "GOOGLE" shouted); [discriminate |].
    destruct (py_get r "System Devices" (PDict [])) as [system_devices | e];
      [| discriminate].
    cbn [bind] in *.
    destruct (py_items system_devices) as [items | e]; [| discriminate].
    cbn [bind] in *.
    rewrite (no_device_when_not_detected items Hdet). cbn [bind].
    eexists. reflexivity. }
  destruct Hinfo as [info Hinfo].
  unfold generate_chromebook_report. rewrite Hdet, Hinfo. cbn [bind].
  eexists. split; [reflexivity |]. repeat split.
Qed.

(** C7.  When the detector returns true on a well-formed record, the report
    holds the results of both resolvers and its recommendations are, in
    this order: the quirk note, the graphics note when the graphics mapping
    is not empty, the processor note naming the substitute when
    needs-substitution is true, the firmware note, the ACPI note; with both
    substitutions present these are exactly five. *)
Theorem recommendations_in_fixed_order (r macos_version : pyval) :
  well_formed r = true ->
  is_chromebook ChromebookIDs r = Ok true ->
  exists report igpu cpu,
    generate_chromebook_report ChromebookIDs r macos_version = Ok report /\
    spoof_igpu_for_chromebook r macos_version = Ok igpu /\
    spoof_cpu_for_chromebook r = Ok cpu /\
    rep_igpu_spoofing report = igpu /\
    rep_cpu_spoofing report = Some cpu /\
    (needs_spoofing cpu = true -> exists model, spoof_as cpu = Some model) /\
    rep_recommendations report
    = [quirk_note]
      ++ (if truthy igpu then [igpu_note] else [])
      ++ (if needs_spoofing cpu
          then [cpu_note (match spoof_as cpu with
                          | Some model => model
                          | None => "supported model"
                          end)]
          else [])
      ++ [firmware_note; acpi_note] /\
    (truthy igpu = true -> needs_spoofing cpu = true ->
     exists model,
       spoof_as cpu = Some model /\
       rep_recommendations report
       = [quirk_note; igpu_note; cpu_note model; firmware_note; acpi_note]).
Proof.
  intros Hwf Hdet.
  rewrite (is_chromebook_wf ChromebookIDs r Hwf) in Hdet. injection Hdet as Hdet.
  destruct (report_detected ChromebookIDs r macos_version Hwf Hdet)
    as [info [igpu [_ [Higpu Hrep]]]].
  eexists. exists igpu, (resolve_cpu (processor_name r) (codename r)).
  split; [exact Hrep |]. split; [exact Higpu |].
  split; [apply (spoof_cpu_wf r Hwf) |].
  cbn [rep_igpu_spoofing rep_cpu_spoofing rep_recommendations].
  split; [reflexivity |]. split; [reflexivity |].
  unfold resolve_cpu.
  destruct (contains "Celeron" (processor_name r)
            || contains "Pentium" (processor_name r));
    cbn [needs_spoofing spoof_as].
  - split; [intros _; eexists; reflexivity |]. split; [reflexivity |].
    intros Hmap _. rewrite Hmap. eexists. split; reflexivity.
  - split; [discriminate |]. split; [reflexivity | discriminate].
Qed.

(** C9.  The graphics resolver and the report assembler give the same
    result whatever the target-OS-version token is. *)
Theorem macos_version_is_ignored (r version1 version2 : pyval) :
  spoof_igpu_for_chromebook r version1 = spoof_igpu_for_chromebook r version2 /\
  generate_chromebook_report ChromebookIDs r version1
  = generate_chromebook_report ChromebookIDs r version2.
Proof.
  split; reflexivity.
Qed.

Lemma detect_fill (r : pyval) :
  detect ChromebookIDs (fill_defaults r) = detect ChromebookIDs r.
Proof.
  unfold detect.
  change (section (fill_defaults r) "System Devices")
    with (props_of (fill_entries device_fields (section r "System Devices"))).
  now rewrite device_known_fill.
Qed.

(** C8.  On a well-formed record, whatever sections and fields it lacks,
    the detector, the device enumerator, both resolvers and the report
    assembler return normally.  The detector and the resolvers return what
    they return on the record in which every absent section is an empty
    mapping and every absent field an empty string; so do the device
    enumerator and the report assembler, but for the motherboard name of
    the diagnostic info, which is "Unknown" and not the empty string when
    the name is absent. *)
Theorem incomplete_record_raises_nothing (r macos_version : pyval) :
  well_formed r = true ->
  is_ok (is_chromebook ChromebookIDs r) = true /\
  is_ok (get_chromebook_info ChromebookIDs r) = true /\
  is_ok (spoof_igpu_for_chromebook r macos_version) = true /\
  is_ok (spoof_cpu_for_chromebook r) = true /\
  is_ok (generate_chromebook_report ChromebookIDs r macos_version) = true /\
  is_chromebook ChromebookIDs r = is_chromebook ChromebookIDs (fill_defaults r) /\
  spoof_igpu_for_chromebook r macos_version
  = spoof_igpu_for_chromebook (fill_defaults r) macos_version /\
  spoof_cpu_for_chromebook r = spoof_cpu_for_chromebook (fill_defaults r) /\
  (exists info filled_info,
      get_chromebook_info ChromebookIDs r = Ok info /\
      get_chromebook_info ChromebookIDs (fill_defaults r) = Ok filled_info /\
      info_is_chromebook info = info_is_chromebook filled_info /\
      info_chromebook_devices info = info_chromebook_devices filled_info /\
      info_motherboard filled_info = PStr (motherboard_name r) /\
      info_motherboard info
      = PStr (if name_absent r then "Unknown" else motherboard_name r)) /\
  (exists report filled_report,
      generate_chromebook_report ChromebookIDs r macos_version = Ok report /\
      generate_chromebook_report ChromebookIDs (fill_defaults r) macos_version
      = Ok filled_report /\
      get_chromebook_info ChromebookIDs r = Ok (rep_chromebook_info report) /\
      get_chromebook_info ChromebookIDs (fill_defaults r)
      = Ok (rep_chromebook_info filled_report) /\
      rep_is_chromebook report = rep_is_chromebook filled_report /\
      rep_igpu_spoofing report = rep_igpu_spoofing filled_report /\
      rep_cpu_spoofing report = rep_cpu_spoofing filled_report /\
      rep_recommendations report = rep_recommendations filled_report).
Proof.
  intros Hwf. pose proof (fill_defaults_well_formed r Hwf) as Hfill.
  pose proof (is_chromebook_wf ChromebookIDs r Hwf) as Hdet.
  pose proof (is_chromebook_wf ChromebookIDs _ Hfill) as Hdet'.
  rewrite detect_fill in Hdet'.
  pose proof (get_chromebook_info_wf ChromebookIDs r Hwf) as Hinfo.
  pose proof (get_chromebook_info_wf ChromebookIDs _ Hfill) as Hinfo'.
  pose proof (spoof_igpu_fold r macos_version Hwf) as Higpu.
  pose proof (spoof_igpu_fold _ macos_version Hfill) as Higpu'.
  change (section (fill_defaults r) "GPU")
    with (props_of (fill_entries gpu_fields (section r "GPU"))) in Higpu'.
  rewrite igpu_fold_fill in Higpu'.
  pose proof (spoof_cpu_wf r Hwf) as Hcpu.
  pose proof (spoof_cpu_wf _ Hfill) as Hcpu'.
  change (resolve_cpu (processor_name (fill_defaults r)) (codename (fill_defaults r)))
    with (resolve_cpu (processor_name r) (codename r)) in Hcpu'.
  assert (Hreports :
            exists report filled_report,
              generate_chromebook_report ChromebookIDs r macos_version = Ok report /\
              generate_chromebook_report ChromebookIDs (fill_defaults r) macos_version
              = Ok filled_report /\
              get_chromebook_info ChromebookIDs r = Ok (rep_chromebook_info report) /\
              get_chromebook_info ChromebookIDs (fill_defaults r)
              = Ok (rep_chromebook_info filled_report) /\
              rep_is_chromebook report = rep_is_chromebook filled_report /\
              rep_igpu_spoofing report = rep_igpu_spoofing filled_report /\
              rep_cpu_spoofing report = rep_cpu_spoofing filled_report /\
              rep_recommendations report = rep_recommendations filled_report).
  { destruct (detect ChromebookIDs r) eqn:Hd.
    - assert (Hd' : detect ChromebookIDs (fill_defaults r) = true)
        by now rewrite detect_fill.
      destruct (report_detected ChromebookIDs r macos_version Hwf Hd)
        as [info [igpu [Hi [Hg Hrep]]]].
      destruct (report_detected ChromebookIDs _ macos_version Hfill Hd')
        as [info' [igpu' [Hi' [Hg' Hrep']]]].
      rewrite Higpu in Hg. injection Hg as <-.
      rewrite Higpu' in Hg'. injection Hg' as <-.
      eexists. eexists. split; [exact Hrep |]. split; [exact Hrep' |].
      cbn [rep_chromebook_info rep_is_chromebook rep_igpu_spoofing
           rep_cpu_spoofing rep_recommendations].
      split; [exact Hi |]. split; [exact Hi' |]. repeat split.
    - assert (Hd' : detect ChromebookIDs (fill_defaults r) = false)
        by now rewrite detect_fill.
      destruct (report_not_detected ChromebookIDs r macos_version Hwf Hd)
        as [info [Hi Hrep]].
      destruct (report_not_detected ChromebookIDs _ macos_version Hfill Hd')
        as [info' [Hi' Hrep']].
      eexists. eexists. split; [exact Hrep |]. split; [exact Hrep' |].
      cbn [rep_chromebook_info rep_is_chromebook rep_igpu_spoofing
           rep_cpu_spoofing rep_recommendations].
      split; [exact Hi |]. split; [exact Hi' |]. repeat split. }
  split; [now rewrite Hdet |]. split; [now rewrite Hinfo |].
  split; [now rewrite Higpu |]. split; [now rewrite Hcpu |].
  split; [destruct Hreports as [report [_ [Hrep _]]]; now rewrite Hrep |].
  split; [now rewrite Hdet, Hdet' |]. split; [now rewrite Higpu, Higpu' |].
  split; [now rewrite Hcpu, Hcpu' |]. split; [| exact Hreports].
  eexists. eexists. split; [exact Hinfo |]. split; [exact Hinfo' |].
  cbn [info_is_chromebook info_chromebook_devices info_motherboard].
  split; [now rewrite detect_fill |]. split.
  - change (section (fill_defaults r) "System Devices")
      with (map (fun kv => (fst kv, fill_fields device_fields (props_of (snd kv))))
              (section r "System Devices")).
    now rewrite enumerate_matches_fill.
  - split; [reflexivity |]. now rewrite (diagnostic_name r Hwf).
Qed.

Lemma is_chromebook_without_name (r : pyval) :
  name_absent r = true ->
  is_chromebook ChromebookIDs r
  = is_chromebook ChromebookIDs (with_motherboard_name "" r).
Proof.
  destruct r as [| s | d]; try discriminate.
  unfold name_absent, is_chromebook, with_motherboard_name. intros Habs.
  cbn [py_get bind]. rewrite dict_lookup_set_same.
  rewrite (dict_lookup_set_other "Motherboard" "System Devices") by discriminate.
  destruct (dict_lookup "Motherboard" d) as [[| s | m] |]; try discriminate.
  - cbn [py_get bind].
    destruct (dict_lookup "Name" m); [discriminate | reflexivity].
  - reflexivity.
Qed.

(** C10.  On a well-formed record whose Motherboard section, or its Name
    field, is absent, the diagnostic info names the motherboard "Unknown",
    while the detector reads the name as the empty string: it returns what
    it returns on the record whose motherboard name is empty. *)
Theorem absent_motherboard_name_is_unknown (r : pyval) :
  well_formed r = true ->
  name_absent r = true ->
  exists info,
    get_chromebook_info ChromebookIDs r = Ok info /\
    info_motherboard info = PStr "Unknown" /\
    motherboard_name r = "" /\
    is_chromebook ChromebookIDs r
    = is_chromebook ChromebookIDs (with_motherboard_name "" r).
Proof.
  intros Hwf Habs. eexists.
  split; [apply (get_chromebook_info_wf ChromebookIDs r Hwf) |].
  cbn [info_motherboard].
  split; [| split; [| now apply is_chromebook_without_name]].
  - destruct r as [| s | d]; try discriminate.
    unfold name_absent in Habs. unfold section, field.
    destruct (dict_lookup "Motherboard" d) as [[| s | m] |]; try discriminate.
    + destruct (dict_lookup "Name" m); [discriminate | reflexivity].
    + reflexivity.
  - destruct r as [| s | d]; try discriminate.
    unfold name_absent in Habs. unfold motherboard_name, section, field.
    destruct (dict_lookup "Motherboard" d) as [[| s | m] |]; try discriminate.
    + destruct (dict_lookup "Name" m); [discriminate | reflexivity].
    + reflexivity.
Qed.

End Report.

(** ** The theorems at the example records *)

Lemma is_chromebook_iff_rule_A_or_rule_B_witness :
  well_formed example_nameless = true /\
  is_chromebook example_ids example_nameless = Ok true /\
  (rule_A example_nameless \/ rule_B example_ids example_nameless).
Proof.
  split; [reflexivity |].
  destruct (is_chromebook_iff_rule_A_or_rule_B example_ids example_nameless eq_refl)
    as [detected [Hrun [Hiff _]]].
  vm_compute in Hrun. injection Hrun as <-.
  split; [reflexivity |]. now apply Hiff.
Defined.

Lemma report_is_empty_when_not_detected_witness :
  is_chromebook example_ids example_laptop = Ok false /\
  exists report,
    generate_chromebook_report example_ids example_laptop example_version
    = Ok report /\
    rep_igpu_spoofing report = [] /\
    rep_cpu_spoofing report = None /\
    rep_recommendations report = [].
Proof.
  split; [reflexivity |].
  destruct (report_is_empty_when_not_detected example_ids example_laptop
              example_version eq_refl)
    as [report [Hrun [_ [Higpu [Hcpu Hrec]]]]].
  exists report. repeat split; assumption.
Defined.

Lemma recommendations_in_fixed_order_witness :
  well_formed example_chromebook = true /\
  is_chromebook example_ids example_chromebook = Ok true /\
  exists report,
    generate_chromebook_report example_ids example_chromebook example_version
    = Ok report /\
    rep_recommendations report
    = [ "Chromebook detected - ProtectMemoryRegions quirk will be enabled";
        "iGPU spoofing required for proper graphics acceleration";
        "CPU will be spoofed as Core i3-8100";
        "Ensure you have disabled firmware write protection before installation";
        "ChromeOS firmware may require additional ACPI patches" ].
Proof.
  split; [reflexivity |]. split; [reflexivity |].
  destruct (recommendations_in_fixed_order example_ids example_chromebook
              example_version eq_refl eq_refl)
    as [report [igpu [cpu [Hrun [Higpu [Hcpu [_ [_ [_ [_ Hfive]]]]]]]]]].
  exists report. split; [exact Hrun |].
  vm_compute in Higpu. injection Higpu as <-.
  vm_compute in Hcpu. injection Hcpu as <-.
  destruct (Hfive eq_refl eq_refl) as [model [Hmodel Hrec]].
  cbn [spoof_as] in Hmodel. injection Hmodel as <-. exact Hrec.
Defined.

Lemma incomplete_record_raises_nothing_witness :
  well_formed example_bare = true /\
  is_ok (generate_chromebook_report example_ids example_bare example_version)
  = true /\
  exists info,
    get_chromebook_info example_ids example_bare = Ok info /\
    info_motherboard info = PStr "Unknown".
Proof.
  split; [reflexivity |].
  destruct (incomplete_record_raises_nothing example_ids example_bare
              example_version eq_refl)
    as [_ [_ [_ [_ [Hreport [_ [_ [_ [[info [filled [Hinfo [_ [_ [_ [_ Hname]]]]]]] _]]]]]]]]].
  split; [exact Hreport |]. exists info. split; [exact Hinfo | exact Hname].
Defined.

(** C8, as the specification words it, fails for the device enumerator and
    the report assembler: on the record without any section the diagnostic
    info does not hold what it holds once the absent motherboard name is
    written out as the empty string. *)
Lemma absent_name_is_not_read_as_empty :
  well_formed example_bare = true /\
  get_chromebook_info example_ids example_bare
  <> get_chromebook_info example_ids (fill_defaults example_bare) /\
  generate_chromebook_report example_ids example_bare example_version
  <> generate_chromebook_report example_ids (fill_defaults example_bare)
       example_version.
Proof.
  split; [reflexivity |].
  split; intros H; vm_compute in H; discriminate H.
Qed.

Lemma absent_motherboard_name_is_unknown_witness :
  well_formed example_nameless = true /\
  name_absent example_nameless = true /\
  exists info,
    get_chromebook_info example_ids example_nameless = Ok info /\
    info_motherboard info = PStr "Unknown" /\
    info_is_chromebook info = true.
Proof.
  split; [reflexivity |]. split; [reflexivity |].
  destruct (absent_motherboard_name_is_unknown example_ids example_nameless
              eq_refl eq_refl)
    as [info [Hrun [Hname _]]].
  exists info. split; [exact Hrun |]. split; [exact Hname |].
  vm_compute in Hrun. injection Hrun as <-. reflexivity.
Defined.

(** ** Records outside the data model

    A section that is present but is not a mapping, or a field that is not
    a string, makes the source raise: absence is what degrades to a
    default, not a value of the wrong kind. *)

Example null_section_raises :
  is_chromebook example_ids (PDict [("Motherboard", PNone)])
  = Raise AttributeError.
Proof. reflexivity. Qed.

Example null_name_raises :
  is_chromebook example_ids (PDict [("Motherboard", PDict [("Name", PNone)])])
  = Raise AttributeError.
Proof. reflexivity. Qed.

Example null_manufacturer_raises :
  spoof_igpu_for_chromebook
    (PDict [("GPU", PDict [("GPU0", PDict [("Manufacturer", PNone)])])])
    example_version
  = Raise TypeError.
Proof. reflexivity. Qed.

(** ** The rows the specification singles out, on the source *)

Example haswell_gpu_entry :
  igpu_body (PDict [("Manufacturer", PStr "Intel Corporation");
                    ("Device ID", PStr "8086-0A16");
                    ("Device Type", PStr "Integrated GPU")])
  = Ok (Some {| original_device_id := PStr "8086-0A16";
                spoofed_device_id := "12040000";
                ig_platform_id := "0600260A";
                igpu_reason := "Chromebook Haswell iGPU spoofing" |}).
Proof. reflexivity. Qed.

Example gemini_lake_gpu_entry :
  igpu_body (PDict [("Manufacturer", PStr "Intel Corporation");
                    ("Device ID", PStr "8086-3185");
                    ("Device Type", PStr "Integrated GPU")])
  = Ok (Some {| original_device_id := PStr "8086-3185";
                spoofed_device_id := "85310000";
                ig_platform_id := "00003185";
                igpu_reason := "Chromebook Gemini Lake iGPU spoofing" |}).
Proof. reflexivity. Qed.

Example discrete_gpu_is_skipped :
  igpu_body (PDict [("Manufacturer", PStr "Intel Corporation");
                    ("Device ID", PStr "8086-0A16");
                    ("Device Type", PStr "Discrete GPU")])
  = Ok None.
Proof. reflexivity. Qed.

Example unknown_generation_is_omitted :
  igpu_body (PDict [("Manufacturer", PStr "Intel Corporation");
                    ("Device ID", PStr "8086-FFFF");
                    ("Device Type", PStr "Integrated GPU")])
  = Ok None.
Proof. reflexivity. Qed.

Example gemini_lake_celeron :
  resolve_cpu "Celeron N4020" "Gemini Lake"
  = {| needs_spoofing := true;
       original_cpu := PStr "Celeron N4020";
       cpu_reason := "Chromebook low-end CPU detected (Celeron/Pentium)";
       spoof_as := Some "Core i3-8100";
       cpuid_data := Some "EA060900" |}.
Proof. reflexivity. Qed.

Example unrecognised_codename_falls_back :
  spoof_cpu_for_chromebook
    (PDict [("CPU", PDict [("Processor Name", PStr "Celeron N4020");
                           ("Codename", PStr "XYZ")])])
  = Ok {| needs_spoofing := true;
          original_cpu := PStr "Celeron N4020";
          cpu_reason := "Chromebook low-end CPU detected (Celeron/Pentium)";
          spoof_as := Some "Core i5 (Generic)";
          cpuid_data := Some "E3060300" |}.
Proof. reflexivity. Qed.

Example goldmont_is_apollo_lake_row :
  resolve_codename "Goldmont" = ("Core i3-7100U", "E9060300").
Proof. reflexivity. Qed.

(** * Further properties of the source *)

(** ** What the loops keep, on any record *)

Lemma dict_set_In {A : Type} (k k' : string) (v v' : A) (d : list (string * A)) :
  In (k', v') (dict_set k v d) -> (k' = k /\ v' = v) \/ In (k', v') d.
Proof.
  induction d as [| [k0 v0] d IH]; simpl.
  - intros [H | []]. injection H as <- <-. now left.
  - destruct (String.eqb k k0) eqn:E.
    + apply String.eqb_eq in E. subst k0. intros [H | H].
      * injection H as <- <-. now left.
      * right. now right.
    + intros [H | H].
      * right. now left.
      * destruct (IH H) as [Hnew | Hold]; [now left | right; now right].
Qed.

Lemma dict_set_keys {A : Type} (k : string) (v : A) (d : list (string * A)) :
  forall k', In k' (map fst (dict_set k v d)) -> k' = k \/ In k' (map fst d).
Proof.
  intros k' H. apply in_map_iff in H as [[k1 v1] [<- H]].
  apply dict_set_In in H as [[-> _] | H]; [now left | right].
  now apply (in_map fst) in H.
Qed.

Lemma dict_set_fresh {A : Type} (k : string) (v : A) (d : list (string * A)) :
  ~ In k (map fst d) -> dict_set k v d = d ++ [(k, v)].
Proof.
  induction d as [| [k0 v0] d IH]; simpl; intros Hfresh; [reflexivity |].
  destruct (String.eqb k k0) eqn:E.
  - apply String.eqb_eq in E. subst k0. tauto.
  - rewrite IH by tauto. reflexivity.
Qed.

(** An entry the loop body stores comes from a string device identifier
    and from the first row of the table that matches it. *)
Lemma igpu_body_some (gpu_props : pyval) (e : igpu_spoof) :
  igpu_body gpu_props = Ok (Some e) ->
  exists device_id rule,
    py_get gpu_props "Device ID" (PStr "") = Ok (PStr device_id) /\
    first_rule (generation_id device_id) = Some rule /\
    e = entry_of_rule (PStr device_id) rule.
Proof.
  unfold igpu_body.
  destruct (py_get gpu_props "Manufacturer" (PStr "")) as [manufacturer | x];
    [| discriminate].
  destruct (py_get gpu_props "Device ID" (PStr "")) as [device_id | x];
    [| discriminate].
  destruct (py_get gpu_props "Device Type" (PStr "")) as [gpu_type | x];
    [| discriminate].
  cbn [bind].
  destruct (py_in "Intel" manufacturer) as [[|] | x]; cbn [bind negb];
    try discriminate.
  destruct (py_in "Integrated" gpu_type) as [[|] | x]; cbn [bind negb];
    try discriminate.
  destruct device_id as [| s | d].
  - discriminate.
  - rewrite device_id_short_str. cbn [bind]. rewrite igpu_chain_table.
    destruct (first_rule (generation_id s)) as [rule |] eqn:Hfirst;
      cbn [option_map]; [| discriminate].
    intros H. injection H as <-. now exists s, rule.
  - unfold device_id_short_of. cbn [py_len bind].
    destruct (9 <=? List.length d)%nat; discriminate.
Qed.

Lemma igpu_loop_entries (items : list (string * pyval)) :
  forall spoof_config final,
    igpu_loop items spoof_config = Ok final ->
    forall gpu_name e,
      In (gpu_name, e) final ->
      In (gpu_name, e) spoof_config \/
      exists gpu_props,
        In (gpu_name, gpu_props) items /\ igpu_body gpu_props = Ok (Some e).
Proof.
  induction items as [| [name props] rest IH]; intros spoof_config final Hrun.
  - injection Hrun as <-. intros gpu_name e Hin. now left.
  - cbn [igpu_loop] in Hrun.
    destruct (igpu_body props) as [[entry |] | x] eqn:Hbody; cbn [bind] in Hrun;
      [| | discriminate]; intros gpu_name e Hin;
      destruct (IH _ _ Hrun gpu_name e Hin) as [Hacc | [gpu_props [Hmem Hb]]].
    + apply dict_set_In in Hacc as [[-> ->] | Hacc]; [| now left].
      right. exists props. split; [now left | exact Hbody].
    + right. exists gpu_props. split; [now right | exact Hb].
    + now left.
    + right. exists gpu_props. split; [now right | exact Hb].
Qed.

(** ** The graphics mapping *)

(** X1.  Whatever the record, when the graphics resolver returns, every
    entry of its mapping is named after a GPU of the record whose device
    identifier is a string, and carries that identifier together with the
    substitute identifier and platform tag of a row of the table that
    matches its generation identifier: no other values are ever given. *)
Theorem igpu_entries_come_from_the_table
    (r macos_version : pyval) (spoof_config : list (string * igpu_spoof)) :
  spoof_igpu_for_chromebook r macos_version = Ok spoof_config ->
  forall gpu_name e,
    In (gpu_name, e) spoof_config ->
    exists items gpu_props device_id rule,
      py_get r "GPU" (PDict []) = Ok (PDict items) /\
      In (gpu_name, gpu_props) items /\
      py_get gpu_props "Device ID" (PStr "") = Ok (PStr device_id) /\
      In rule generation_table /\
      rule_matches (generation_id device_id) rule = true /\
      original_device_id e = PStr device_id /\
      spoofed_device_id e = gen_device_id rule /\
      ig_platform_id e = gen_platform_tag rule.
Proof.
  unfold spoof_igpu_for_chromebook. intros Hrun gpu_name e Hin.
  destruct (py_get r "GPU" (PDict [])) as [gpus | x]; [| discriminate].
  cbn [bind] in Hrun.
  destruct gpus as [| s | items]; try discriminate. cbn [py_items bind] in Hrun.
  destruct (igpu_loop_entries items [] spoof_config Hrun gpu_name e Hin)
    as [[] | [gpu_props [Hmem Hbody]]].
  destruct (igpu_body_some gpu_props e Hbody) as [device_id [rule [Hid [Hfirst ->]]]].
  unfold first_rule in Hfirst. apply find_some in Hfirst as [Hrule Hmatch].
  exists items, gpu_props, device_id, rule. repeat split; assumption.
Qed.

Lemma igpu_entries_come_from_the_table_witness :
  exists spoof_config,
    spoof_igpu_for_chromebook example_chromebook example_version = Ok spoof_config /\
    forall gpu_name e,
      In (gpu_name, e) spoof_config ->
      exists rule, In rule generation_table /\
                   spoofed_device_id e = gen_device_id rule.
Proof.
  eexists. split; [reflexivity |]. intros gpu_name e Hin.
  destruct (igpu_entries_come_from_the_table example_chromebook example_version
              _ eq_refl gpu_name e Hin)
    as [items [gpu_props [device_id [rule [_ [_ [_ [Hrule [_ [_ [Hid _]]]]]]]]]]].
  exists rule. split; assumption.
Defined.

Lemma igpu_fold_fresh (items : list (string * pyval)) :
  distinct (map fst items) = true ->
  forall spoof_config,
    (forall k, In k (map fst items) -> ~ In k (map fst spoof_config)) ->
    igpu_fold items spoof_config = spoof_config ++ igpu_entries items.
Proof.
  unfold igpu_fold, igpu_entries.
  induction items as [| [name props] rest IH]; intros Hd spoof_config Hfresh.
  - simpl. now rewrite app_nil_r.
  - simpl in Hd. apply andb_true_iff in Hd as [Hname Hd].
    apply negb_true_iff, str_mem_false in Hname.
    cbn [fold_left flat_map fst snd].
    destruct (resolve_gpu (props_of props)) as [e |].
    + rewrite (IH Hd).
      * rewrite dict_set_fresh by (apply Hfresh; now left).
        now rewrite <- app_assoc.
      * intros k Hk Hin. apply dict_set_keys in Hin as [-> | Hin];
          [tauto | apply (Hfresh k); [now right | assumption]].
    + cbn [app]. apply (IH Hd). intros k Hk. apply Hfresh. now right.
Qed.

(** X2.  On a well-formed record the graphics mapping lists the GPUs it
    substitutes in the order of the record, one entry for each, with the
    names they have in the record. *)
Theorem igpu_mapping_keeps_record_order (r macos_version : pyval) :
  well_formed r = true ->
  spoof_igpu_for_chromebook r macos_version
  = Ok (igpu_entries (section r "GPU")) /\
  map fst (igpu_entries (section r "GPU"))
  = map fst (filter (fun kv => match resolve_gpu (props_of (snd kv)) with
                               | Some _ => true
                               | None => false
                               end)
               (section r "GPU")).
Proof.
  intros Hwf. split.
  - rewrite (spoof_igpu_fold r macos_version Hwf).
    destruct (section_shapes r Hwf) as [_ [_ [Hgpu _]]].
    apply entries_ok_items in Hgpu as [Hd _].
    rewrite (igpu_fold_fresh _ Hd []); [reflexivity |].
    intros k _ [].
  - unfold igpu_entries.
    induction (section r "GPU") as [| [name props] rest IH]; [reflexivity |].
    cbn [flat_map filter fst snd].
    destruct (resolve_gpu (props_of props)); cbn [app map fst]; now rewrite IH.
Qed.

Lemma igpu_mapping_keeps_record_order_witness :
  well_formed example_chromebook = true /\
  exists e,
    spoof_igpu_for_chromebook example_chromebook example_version
    = Ok [("Intel HD Graphics 615", e)].
Proof.
  split; [reflexivity |].
  destruct (igpu_mapping_keeps_record_order example_chromebook example_version eq_refl)
    as [Hrun _].
  eexists. rewrite Hrun. reflexivity.
Defined.

(** ** The branches of the graphics chain *)

Lemma rule_matches_first_four (rule : generation_rule) (short : string) :
  In rule generation_table ->
  rule_matches short rule = true ->
  In (substring 0 4 short) (gen_prefixes rule).
Proof.
  unfold rule_matches, starts_with_any. intros Hrule Hmatch.
  apply existsb_exists in Hmatch as [p [Hp Hprefix]].
  apply prefix_correct in Hprefix.
  assert (Hlen : String.length p = 4).
  { unfold generation_table in Hrule.
    repeat (destruct Hrule as [<- | Hrule];
            [cbn [gen_prefixes] in Hp;
             repeat (destruct Hp as [<- | Hp]; [reflexivity |]);
             destruct Hp |]).
    destruct Hrule. }
  rewrite Hlen in Hprefix. now rewrite Hprefix.
Qed.

Lemma prefixes_are_disjoint (rule1 rule2 : generation_rule) (p : string) :
  In rule1 generation_table ->
  In rule2 generation_table ->
  In p (gen_prefixes rule1) ->
  In p (gen_prefixes rule2) ->
  rule1 = rule2.
Proof.
  unfold generation_table. intros H1 H2 P1 P2.
  repeat (destruct H1 as [<- | H1];
          [cbn [gen_prefixes] in P1;
           repeat (destruct P1 as [<- | P1];
                   [repeat (destruct H2 as [<- | H2];
                            [cbn [gen_prefixes In] in P2;
                             first [reflexivity | exfalso; intuition discriminate] |]);
                    destruct H2 |]);
           destruct P1 |]).
  destruct H1.
Qed.

(** X3.  The branches of the chain exclude one another: a generation
    identifier that a row of the table matches is matched by no other row,
    and the chain gives the entry of that row, wherever the row stands in
    the chain. *)
Theorem igpu_chain_rows_exclude_one_another
    (device_id : pyval) (short : string) (rule : generation_rule) :
  In rule generation_table ->
  rule_matches short rule = true ->
  igpu_chain device_id (PStr short) = Ok (Some (entry_of_rule device_id rule)) /\
  forall other,
    In other generation_table -> rule_matches short other = true -> other = rule.
Proof.
  intros Hrule Hmatch.
  assert (Hother : forall other,
             In other generation_table -> rule_matches short other = true ->
             other = rule).
  { intros other Hin Hm.
    apply (prefixes_are_disjoint other rule (substring 0 4 short));
      try assumption; now apply rule_matches_first_four. }
  split; [| exact Hother].
  rewrite igpu_chain_table.
  destruct (first_rule short) as [found |] eqn:Hfirst; unfold first_rule in Hfirst.
  - apply find_some in Hfirst as [Hin Hm]. now rewrite (Hother found Hin Hm).
  - rewrite (find_none _ _ Hfirst rule Hrule) in Hmatch. discriminate.
Qed.

Lemma igpu_chain_rows_exclude_one_another_witness :
  igpu_chain (PStr "8086-8A52") (PStr "8A52")
  = Ok (Some {| original_device_id := PStr "8086-8A52";
                spoofed_device_id := "5A528A00";
                ig_platform_id := "00528A8A";
                igpu_reason := "Chromebook Ice Lake iGPU spoofing" |}).
Proof.
  apply (igpu_chain_rows_exclude_one_another (PStr "8086-8A52") "8A52"
           {| gen_name := "Ice Lake";
              gen_prefixes := ["8A51"; "8A52"; "8A5A"];
              gen_device_id := "5A528A00"; gen_platform_tag := "00528A8A" |}).
  - unfold generation_table. simpl. tauto.
  - reflexivity.
Defined.

Lemma str_length_append (a b : string) :
  String.length (String.append a b) = String.length a + String.length b.
Proof.
  induction a as [| c a IH]; simpl; [reflexivity | now rewrite IH].
Qed.

Lemma str_drop_whole_head (a b : string) :
  str_drop (String.length a) (String.append a b) = b.
Proof.
  induction a as [| c a IH]; simpl; [reflexivity | exact IH].
Qed.

Lemma rule_matches_prefix_tail (rule : generation_rule) (p tail : string) :
  In p (gen_prefixes rule) ->
  rule_matches (String.append p tail) rule = true.
Proof.
  intros Hp. unfold rule_matches, starts_with_any.
  apply existsb_exists. exists p. split; [assumption |].
  apply prefix_append. now exists tail.
Qed.

Lemma listed_prefix_length (rule : generation_rule) (p : string) :
  In rule generation_table -> In p (gen_prefixes rule) -> String.length p = 4.
Proof.
  unfold generation_table. intros Hrule Hp.
  repeat (destruct Hrule as [<- | Hrule];
          [cbn [gen_prefixes] in Hp;
           repeat (destruct Hp as [<- | Hp]; [reflexivity |]);
           destruct Hp |]).
  destruct Hrule.
Qed.

Lemma igpu_body_intel (device_id : string) :
  igpu_body (intel_igpu device_id)
  = Ok (option_map (entry_of_rule (PStr device_id))
          (first_rule (generation_id device_id))).
Proof.
  rewrite igpu_body_wf by reflexivity. reflexivity.
Qed.

(** X4.  For an Intel integrated GPU, only the characters after the fifth
    count, and only the first four of them: whatever five characters
    stand before a listed prefix and whatever follows it, the GPU gets the
    entry of the row of that prefix; and a bare identifier of fewer than
    nine characters that starts with a listed prefix gets it as well. *)
Theorem igpu_match_ignores_vendor_part_and_tail
    (vendor p tail : string) (rule : generation_rule) :
  In rule generation_table ->
  In p (gen_prefixes rule) ->
  (String.length vendor = 5 ->
   igpu_body (intel_igpu (String.append vendor (String.append p tail)))
   = Ok (Some (entry_of_rule
                 (PStr (String.append vendor (String.append p tail))) rule))) /\
  (String.length tail < 5 ->
   igpu_body (intel_igpu (String.append p tail))
   = Ok (Some (entry_of_rule (PStr (String.append p tail)) rule))).
Proof.
  intros Hrule Hp.
  pose proof (listed_prefix_length rule p Hrule Hp) as Hlen.
  assert (Hfirst : first_rule (String.append p tail) = Some rule).
  { destruct (first_rule (String.append p tail)) as [found |] eqn:Hfirst;
      unfold first_rule in Hfirst.
    - apply find_some in Hfirst as [Hin Hm]. f_equal.
      apply (prefixes_are_disjoint found rule (substring 0 4 (String.append p tail)));
        try assumption; apply rule_matches_first_four; try assumption.
      now apply rule_matches_prefix_tail.
    - pose proof (rule_matches_prefix_tail rule p tail Hp) as Hm.
      rewrite (find_none _ _ Hfirst rule Hrule) in Hm. discriminate. }
  split; intros Hsize; rewrite igpu_body_intel; unfold generation_id.
  - rewrite str_length_append, str_length_append, Hsize, Hlen.
    cbn [Nat.add Nat.leb]. rewrite <- Hsize, str_drop_whole_head, Hfirst.
    reflexivity.
  - rewrite str_length_append, Hlen.
    replace (9 <=? 4 + String.length tail)%nat with false
      by (symmetry; apply Nat.leb_gt; lia).
    now rewrite Hfirst.
Qed.

Lemma igpu_match_ignores_vendor_part_and_tail_witness :
  igpu_body (intel_igpu "10DE:5A85-rev2")
  = Ok (Some {| original_device_id := PStr "10DE:5A85-rev2";
                spoofed_device_id := "5A850000";
                ig_platform_id := "00005A84";
                igpu_reason := "Chromebook Apollo Lake iGPU spoofing" |}) /\
  igpu_body (intel_igpu "5A85")
  = Ok (Some {| original_device_id := PStr "5A85";
                spoofed_device_id := "5A850000";
                ig_platform_id := "00005A84";
                igpu_reason := "Chromebook Apollo Lake iGPU spoofing" |}).
Proof.
  split.
  - apply (proj1 (igpu_match_ignores_vendor_part_and_tail "10DE:" "5A85" "-rev2"
                    {| gen_name := "Apollo Lake";
                       gen_prefixes := ["5A84"; "5A85"];
                       gen_device_id := "5A850000";
                       gen_platform_tag := "00005A84" |}
                    ltac:(unfold generation_table; simpl; tauto)
                    ltac:(simpl; tauto))).
    reflexivity.
  - apply (proj2 (igpu_match_ignores_vendor_part_and_tail "" "5A85" ""
                    {| gen_name := "Apollo Lake";
                       gen_prefixes := ["5A84"; "5A85"];
                       gen_device_id := "5A850000";
                       gen_platform_tag := "00005A84" |}
                    ltac:(unfold generation_table; simpl; tauto)
                    ltac:(simpl; tauto))).
    simpl. lia.
Defined.

(** ** The device enumerator and the detector *)

Section Devices.

Variable ChromebookIDs : list (string * list string).

Lemma known_device_true (device_id subsystem_id : pyval) :
  known_device ChromebookIDs device_id subsystem_id = Ok true ->
  exists d s subsystems,
    device_id = PStr d /\ subsystem_id = PStr s /\
    dict_lookup d ChromebookIDs = Some subsystems /\ In s subsystems.
Proof.
  unfold known_device.
  destruct device_id as [| d | x]; cbn [ids_contains bind]; try discriminate.
  destruct (str_mem d (map fst ChromebookIDs)); [| discriminate].
  cbn [ids_getitem].
  destruct (dict_lookup d ChromebookIDs) as [subsystems |] eqn:Hids;
    cbn [bind]; [| discriminate].
  destruct subsystem_id as [| s | x]; cbn [subsystems_contain]; try discriminate.
  intros H. injection H as H. apply str_mem_In in H.
  now exists d, s, subsystems.
Qed.

Lemma chromebook_devices_loop_sound (items : list (string * pyval)) :
  forall found final,
    chromebook_devices_loop ChromebookIDs items found = Ok final ->
    forall device,
      In device final ->
      In device found \/
      (In (dev_name device) (map fst items) /\
       known_device ChromebookIDs (dev_device_id device) (dev_subsystem_id device)
       = Ok true).
Proof.
  induction items as [| [name props] rest IH]; intros found final Hrun device Hin.
  - injection Hrun as <-. now left.
  - cbn [chromebook_devices_loop] in Hrun.
    destruct (py_get props "Device ID" (PStr "")) as [device_id | x];
      [| discriminate].
    destruct (py_get props "Subsystem ID" (PStr "")) as [subsystem_id | x];
      [| discriminate].
    cbn [bind] in Hrun.
    destruct (known_device ChromebookIDs device_id subsystem_id) as [[|] | x] eqn:Hk;
      cbn [bind] in Hrun; [| | discriminate];
      destruct (IH _ _ Hrun device Hin) as [Hfound | [Hname Hknown]].
    + apply in_app_or in Hfound as [Hfound | [<- | []]]; [now left |].
      right. split; [now left | exact Hk].
    + right. split; [now right | exact Hknown].
    + now left.
    + right. split; [now right | exact Hknown].
Qed.

(** What a returned diagnostic info was computed from. *)
Lemma get_chromebook_info_inv (r : pyval) (info : chromebook_info) :
  get_chromebook_info ChromebookIDs r = Ok info ->
  exists items,
    is_chromebook ChromebookIDs r = Ok (info_is_chromebook info) /\
    py_get r "System Devices" (PDict []) = Ok (PDict items) /\
    chromebook_devices_loop ChromebookIDs items []
    = Ok (info_chromebook_devices info).
Proof.
  unfold get_chromebook_info.
  destruct (is_chromebook ChromebookIDs r) as [detected | x]; [| discriminate].
  cbn [bind].
  destruct (py_get r "Motherboard" (PDict [])) as [motherboard | x];
    [| discriminate].
  cbn [bind].
  destruct (py_get motherboard "Name" (PStr "Unknown")) as [name | x];
    [| discriminate].
  cbn [bind].
  destruct (py_get r "System Devices" (PDict [])) as [system_devices | x];
    [| discriminate].
  cbn [bind].
  destruct system_devices as [| s | items]; try discriminate.
  cbn [py_items bind].
  destruct (chromebook_devices_loop ChromebookIDs items []) as [devices | x]
    eqn:Hloop; [| discriminate].
  cbn [bind]. intros H. injection H as <-. exists items.
  repeat split. exact Hloop.
Qed.

(** The loop the detector runs when Rule A has not fired. *)
Lemma is_chromebook_false_inv (r : pyval) :
  is_chromebook ChromebookIDs r = Ok false ->
  exists items,
    py_get r "System Devices" (PDict []) = Ok (PDict items) /\
    is_chromebook_loop ChromebookIDs items = Ok false.
Proof.
  unfold is_chromebook.
  destruct (py_get r "Motherboard" (PDict [])) as [motherboard | x];
    [| discriminate].
  cbn [bind].
  destruct (py_get motherboard "Name" (PStr "")) as [name | x]; [| discriminate].
  cbn [bind].
  destruct (py_upper name) as [shouted | x]; [| discriminate].
  cbn [bind].
  destruct (contains "GOOGLE" shouted); [discriminate |].
  destruct (py_get r "System Devices" (PDict [])) as [system_devices | x];
    [| discriminate].
  cbn [bind].
  destruct system_devices as [| s | items]; try discriminate.
  cbn [py_items bind]. intros H. exists items. split; [reflexivity | exact H].
Qed.

Lemma rule_B_existsb (r : pyval) :
  existsb (fun kv => device_known ChromebookIDs (props_of (snd kv)))
    (section r "System Devices") = true
  <-> rule_B ChromebookIDs r.
Proof.
  unfold rule_B. rewrite existsb_exists. unfold device_known. split.
  - intros [[name props] [Hin Hknown]]. cbn [snd] in Hknown.
    destruct (dict_lookup _ ChromebookIDs) as [subsystems |] eqn:E;
      [| discriminate].
    exists name, props, subsystems. repeat split; try assumption.
    now apply str_mem_In.
  - intros [name [props [subsystems [Hin [Hids Hsub]]]]].
    exists (name, props). split; [assumption |]. cbn [snd].
    rewrite Hids. now apply str_mem_In.
Qed.

(** X5.  On a well-formed record the diagnostic info lists exactly the
    entries of System Devices that satisfy the test of Rule B, in the order
    of the record, each with its name and its two identifiers; the list is
    empty exactly when Rule B does not hold. *)
Theorem enumerator_lists_rule_B_devices (r : pyval) :
  well_formed r = true ->
  exists info,
    get_chromebook_info ChromebookIDs r = Ok info /\
    map dev_name (info_chromebook_devices info)
    = map fst (filter (fun kv => device_known ChromebookIDs (props_of (snd kv)))
                 (section r "System Devices")) /\
    (forall device,
        In device (info_chromebook_devices info) ->
        exists props,
          In (dev_name device, props) (section r "System Devices") /\
          device_known ChromebookIDs (props_of props) = true /\
          dev_device_id device = PStr (field (props_of props) "Device ID" "") /\
          dev_subsystem_id device
          = PStr (field (props_of props) "Subsystem ID" "")) /\
    (info_chromebook_devices info <> [] <-> rule_B ChromebookIDs r).
Proof.
  intros Hwf. eexists.
  split; [apply (get_chromebook_info_wf ChromebookIDs r Hwf) |].
  cbn [info_chromebook_devices]. unfold enumerate_matches.
  split; [| split].
  - rewrite map_map. now apply map_ext.
  - intros device Hin. apply in_map_iff in Hin as [[name props] [<- Hin]].
    apply filter_In in Hin as [Hin Hknown]. cbn [fst snd] in *.
    exists props. repeat split; assumption.
  - rewrite <- rule_B_existsb.
    induction (section r "System Devices") as [| [name props] rest IH].
    + simpl. split; [intros H; now contradiction H | discriminate].
    + cbn [filter existsb snd].
      destruct (device_known ChromebookIDs (props_of props)); cbn [map orb].
      * split; [reflexivity | discriminate].
      * exact IH.
Qed.

(** X6.  Whatever the record, when the diagnostic info is returned, its
    flag is what the detector returns, every device it lists has string
    identifiers that the dataset pairs, under a name of System Devices,
    and a non-empty list comes with a true flag. *)
Theorem enumerated_devices_are_in_the_dataset (r : pyval) (info : chromebook_info) :
  get_chromebook_info ChromebookIDs r = Ok info ->
  is_chromebook ChromebookIDs r = Ok (info_is_chromebook info) /\
  (forall device,
      In device (info_chromebook_devices info) ->
      exists items d s subsystems,
        py_get r "System Devices" (PDict []) = Ok (PDict items) /\
        In (dev_name device) (map fst items) /\
        dev_device_id device = PStr d /\
        dev_subsystem_id device = PStr s /\
        dict_lookup d ChromebookIDs = Some subsystems /\
        In s subsystems) /\
  (info_chromebook_devices info <> [] -> info_is_chromebook info = true).
Proof.
  intros Hinfo.
  destruct (get_chromebook_info_inv r info Hinfo) as [items [Hdet [Hitems Hloop]]].
  split; [exact Hdet |]. split.
  - intros device Hin.
    destruct (chromebook_devices_loop_sound items [] _ Hloop device Hin)
      as [[] | [Hname Hknown]].
    destruct (known_device_true _ _ Hknown) as [d [s [subsystems [Hd [Hs [Hids Hsub]]]]]].
    exists items, d, s, subsystems. repeat split; assumption.
  - intros Hsome. destruct (info_is_chromebook info) eqn:Hflag; [reflexivity |].
    exfalso. apply Hsome.
    destruct (is_chromebook_false_inv r Hdet) as [items' [Hitems' Hfalse]].
    rewrite Hitems in Hitems'. injection Hitems' as <-.
    rewrite (no_device_when_not_detected ChromebookIDs items Hfalse []) in Hloop.
    now injection Hloop.
Qed.

(** X7.  Rule A decides before the devices are read: when the motherboard
    name is a string that contains the vendor name in any letter case, the
    detector returns true whatever stands in the System Devices section,
    also a value on which its loop would raise. *)
Theorem vendor_name_decides_before_devices
    (d m : list (string * pyval)) (name : string) (system_devices : pyval) :
  dict_lookup "Motherboard" d = Some (PDict m) ->
  dict_lookup "Name" m = Some (PStr name) ->
  case_insensitive_substring vendor_name name ->
  is_chromebook ChromebookIDs (PDict d) = Ok true /\
  is_chromebook ChromebookIDs (PDict (dict_set "System Devices" system_devices d))
  = Ok true.
Proof.
  intros Hmb Hname Hvendor. apply google_in_upper in Hvendor.
  unfold is_chromebook. cbn [py_get bind].
  rewrite (dict_lookup_set_other "System Devices" "Motherboard") by discriminate.
  rewrite Hmb. cbn [py_get bind]. rewrite Hname. cbn [py_upper bind].
  now rewrite Hvendor.
Qed.

End Devices.

Lemma enumerator_lists_rule_B_devices_witness :
  well_formed example_chromebook = true /\
  exists info,
    get_chromebook_info example_ids example_chromebook = Ok info /\
    map dev_name (info_chromebook_devices info) = ["PMC"].
Proof.
  split; [reflexivity |].
  destruct (enumerator_lists_rule_B_devices example_ids example_chromebook eq_refl)
    as [info [Hrun [Hnames _]]].
  exists info. split; [exact Hrun | exact Hnames].
Defined.

Lemma enumerated_devices_are_in_the_dataset_witness :
  exists info,
    get_chromebook_info example_ids example_nameless = Ok info /\
    is_chromebook example_ids example_nameless = Ok (info_is_chromebook info).
Proof.
  eexists. split; [reflexivity |].
  exact (proj1 (enumerated_devices_are_in_the_dataset example_ids example_nameless
                  _ eq_refl)).
Defined.

Lemma vendor_name_decides_before_devices_witness :
  is_chromebook example_ids
    (PDict [("Motherboard", PDict [("Name", PStr "Google Eve")]);
            ("System Devices", PNone)])
  = Ok true.
Proof.
  exact (proj2 (vendor_name_decides_before_devices example_ids
                  [("Motherboard", PDict [("Name", PStr "Google Eve")])]
                  [("Name", PStr "Google Eve")] "Google Eve" PNone
                  eq_refl eq_refl
                  (ex_intro _ "" (ex_intro _ "Google" (ex_intro _ " Eve"
                     (conj eq_refl eq_refl)))))).
Defined.

(** ** The processor resolver on any record *)

(** The chain on a codename that is a dictionary tests its keys. *)
Lemma cpu_chain_dict (d : list (string * pyval)) :
  cpu_chain (PDict d)
  = Ok (match find (fun rule =>
                      existsb (fun sub => str_mem sub (map fst d))
                        (code_substrings rule))
                codename_table with
        | Some rule => (code_model rule, code_payload rule)
        | None => generic_fallback
        end).
Proof.
  unfold cpu_chain, codename_table, py_in.
  cbn [bind find code_substrings existsb].
  repeat match goal with
         | |- context [str_mem ?n (map fst d)] =>
             destruct (str_mem n (map fst d));
             cbn [bind find orb code_model code_payload]
         end; reflexivity.
Qed.

Lemma cpu_chain_range (cpu_codename : pyval) (chosen : string * string) :
  cpu_chain cpu_codename = Ok chosen ->
  chosen = generic_fallback \/
  exists rule,
    In rule codename_table /\ chosen = (code_model rule, code_payload rule).
Proof.
  destruct cpu_codename as [| s | d].
  - discriminate.
  - rewrite cpu_chain_table. unfold resolve_codename.
    destruct (find _ codename_table) as [rule |] eqn:Hfind;
      intros H; injection H as <-; [right | now left].
    apply find_some in Hfind as [Hin _]. now exists rule.
  - rewrite cpu_chain_dict.
    destruct (find _ codename_table) as [rule |] eqn:Hfind;
      intros H; injection H as <-; [right | now left].
    apply find_some in Hfind as [Hin _]. now exists rule.
Qed.

(** X8.  Whatever the record, when the processor resolver returns, the
    substitute name and payload are present exactly when needs-substitution
    is true, and they are then those of one row of the codename table or
    the generic fallback; when it is false the reason is empty. *)
Theorem cpu_substitute_present_iff_needed (r : pyval) (c : cpu_spoof) :
  spoof_cpu_for_chromebook r = Ok c ->
  (needs_spoofing c = true ->
   exists model payload,
     spoof_as c = Some model /\ cpuid_data c = Some payload /\
     ((model, payload) = generic_fallback \/
      exists rule,
        In rule codename_table /\
        model = code_model rule /\ payload = code_payload rule)) /\
  (needs_spoofing c = false ->
   spoof_as c = None /\ cpuid_data c = None /\ cpu_reason c = "").
Proof.
  unfold spoof_cpu_for_chromebook.
  destruct (py_get r "CPU" (PDict [])) as [cpu | x]; [| discriminate].
  cbn [bind].
  destruct (py_get cpu "Processor Name" (PStr "")) as [cpu_name | x];
    [| discriminate].
  cbn [bind].
  destruct (py_get cpu "Codename" (PStr "")) as [cpu_codename | x];
    [| discriminate].
  cbn [bind].
  destruct (py_in "Celeron" cpu_name) as [celeron | x]; [| discriminate].
  cbn [bind].
  assert (Hplain :
            Ok {| needs_spoofing := false; original_cpu := cpu_name;
                  cpu_reason := ""; spoof_as := None; cpuid_data := None |}
            = Ok c ->
            (needs_spoofing c = true ->
             exists model payload,
               spoof_as c = Some model /\ cpuid_data c = Some payload /\
               ((model, payload) = generic_fallback \/
                exists rule,
                  In rule codename_table /\
                  model = code_model rule /\ payload = code_payload rule)) /\
            (needs_spoofing c = false ->
             spoof_as c = None /\ cpuid_data c = None /\ cpu_reason c = "")).
  { intros H. injection H as <-. split; [discriminate | now intros _]. }
  assert (Hlow :
            (chosen <- cpu_chain cpu_codename ;;
             Ok {| needs_spoofing := true; original_cpu := cpu_name;
                   cpu_reason := "Chromebook low-end CPU detected (Celeron/Pentium)";
                   spoof_as := Some (fst chosen);
                   cpuid_data := Some (snd chosen) |})
            = Ok c ->
            (needs_spoofing c = true ->
             exists model payload,
               spoof_as c = Some model /\ cpuid_data c = Some payload /\
               ((model, payload) = generic_fallback \/
                exists rule,
                  In rule codename_table /\
                  model = code_model rule /\ payload = code_payload rule)) /\
            (needs_spoofing c = false ->
             spoof_as c = None /\ cpuid_data c = None /\ cpu_reason c = "")).
  { destruct (cpu_chain cpu_codename) as [[model payload] | x] eqn:Hchain;
      [| discriminate].
    cbn [bind fst snd]. intros H. injection H as <-.
    split; [intros _ | discriminate].
    exists model, payload. split; [reflexivity |]. split; [reflexivity |].
    destruct (cpu_chain_range _ _ Hchain) as [Hgen | [rule [Hin Hrule]]];
      [now left | right].
    injection Hrule as -> ->. now exists rule. }
  destruct celeron; cbn [bind]; [exact Hlow |].
  destruct (py_in "Pentium" cpu_name) as [[|] | x]; cbn [bind];
    [exact Hlow | exact Hplain | discriminate].
Qed.

Lemma cpu_substitute_present_iff_needed_witness :
  exists c,
    spoof_cpu_for_chromebook example_chromebook = Ok c /\
    exists model payload,
      spoof_as c = Some model /\ cpuid_data c = Some payload.
Proof.
  eexists. split; [reflexivity |].
  destruct (proj1 (cpu_substitute_present_iff_needed example_chromebook _ eq_refl)
              eq_refl)
    as [model [payload [Hmodel [Hpayload _]]]].
  now exists model, payload.
Defined.

(** ** The report on any record *)

Section ReportShape.

Variable ChromebookIDs : list (string * list string).

(** What a returned report was assembled from. *)
Lemma generate_chromebook_report_inv
    (r macos_version : pyval) (report : chromebook_report) :
  generate_chromebook_report ChromebookIDs r macos_version = Ok report ->
  exists info,
    get_chromebook_info ChromebookIDs r = Ok info /\
    ((is_chromebook ChromebookIDs r = Ok false /\
      report = {| rep_is_chromebook := false;
                  rep_chromebook_info := info;
                  rep_igpu_spoofing := [];
                  rep_cpu_spoofing := None;
                  rep_recommendations := [] |}) \/
     (is_chromebook ChromebookIDs r = Ok true /\
      exists igpu cpu,
        spoof_igpu_for_chromebook r macos_version = Ok igpu /\
        spoof_cpu_for_chromebook r = Ok cpu /\
        report = {| rep_is_chromebook := true;
                    rep_chromebook_info := info;
                    rep_igpu_spoofing := igpu;
                    rep_cpu_spoofing := Some cpu;
                    rep_recommendations := recommendations_for igpu cpu |})).
Proof.
  unfold generate_chromebook_report.
  destruct (is_chromebook ChromebookIDs r) as [detected | x]; [| discriminate].
  cbn [bind].
  destruct (get_chromebook_info ChromebookIDs r) as [info | x]; [| discriminate].
  cbn [bind]. destruct detected.
  - destruct (spoof_igpu_for_chromebook r macos_version) as [igpu | x] eqn:Higpu;
      [| discriminate].
    cbn [bind].
    destruct (spoof_cpu_for_chromebook r) as [cpu | x] eqn:Hcpu; [| discriminate].
    cbn [bind]. intros H. injection H as <-.
    exists info. split; [reflexivity |]. right. split; [reflexivity |].
    exists igpu, cpu. split; [reflexivity |]. split; [reflexivity |].
    unfold recommendations_for.
    destruct (truthy igpu), (needs_spoofing cpu); reflexivity.
  - intros H. injection H as <-.
    exists info. split; [reflexivity |]. left. now split.
Qed.

(** X9.  Whatever the record, a returned report is consistent: its flag is
    what the detector returns and also the flag of its diagnostic info;
    recommendations and the processor section are present exactly when the
    flag is true; and then the recommendations open with the quirk note
    and close with the firmware and ACPI notes, with at most two notes in
    between, so they are three to five. *)
Theorem report_is_consistent
    (r macos_version : pyval) (report : chromebook_report) :
  generate_chromebook_report ChromebookIDs r macos_version = Ok report ->
  is_chromebook ChromebookIDs r = Ok (rep_is_chromebook report) /\
  get_chromebook_info ChromebookIDs r = Ok (rep_chromebook_info report) /\
  info_is_chromebook (rep_chromebook_info report) = rep_is_chromebook report /\
  (rep_is_chromebook report = false <-> rep_recommendations report = []) /\
  (rep_is_chromebook report = false <-> rep_cpu_spoofing report = None) /\
  (rep_is_chromebook report = true ->
   exists middle,
     rep_recommendations report
     = quirk_note :: middle ++ [firmware_note; acpi_note] /\
     List.length middle <= 2 /\
     3 <= List.length (rep_recommendations report) <= 5).
Proof.
  intros Hrun.
  destruct (generate_chromebook_report_inv r macos_version report Hrun)
    as [info [Hinfo [[Hdet ->] | [Hdet [igpu [cpu [Higpu [Hcpu ->]]]]]]]];
    cbn [rep_is_chromebook rep_chromebook_info rep_recommendations rep_cpu_spoofing];
    (split; [exact Hdet |]); (split; [exact Hinfo |]);
    (split; [destruct (get_chromebook_info_inv ChromebookIDs r info Hinfo)
               as [items [Hflag _]];
             rewrite Hdet in Hflag; now injection Hflag |]).
  - repeat split; discriminate.
  - split; [split; discriminate |]. split; [split; discriminate |].
    intros _. unfold recommendations_for.
    exists ((if truthy igpu then [igpu_note] else [])
            ++ (if needs_spoofing cpu
                then [cpu_note (match spoof_as cpu with
                                | Some model => model
                                | None => "supported model"
                                end)]
                else [])).
    split; [cbn [app]; now rewrite app_assoc |].
    destruct (truthy igpu), (needs_spoofing cpu); cbn [List.length app]; lia.
Qed.

End ReportShape.

Lemma report_is_consistent_witness :
  exists report,
    generate_chromebook_report example_ids example_nameless example_version
    = Ok report /\
    rep_is_chromebook report = true /\
    List.length (rep_recommendations report) = 3.
Proof.
  eexists. split; [reflexivity |].
  destruct (report_is_consistent example_ids example_nameless example_version
              _ eq_refl)
    as [_ [_ [_ [_ [_ Hthree]]]]].
  split; [reflexivity |].
  destruct (Hthree eq_refl) as [middle [_ [_ [Hlow _]]]].
  reflexivity.
Defined.

(** ** What [print_chromebook_detection_info] sends out *)

Lemma recommendation_lines_are_prints (idx : nat) (recommendations : list string) :
  forallb is_print (recommendation_lines idx recommendations) = true.
Proof.
  revert idx. induction recommendations as [| rec rest IH]; intros idx;
    [reflexivity | exact (IH (S idx))].
Qed.

Lemma recommendation_lines_nth (recommendations : list string) :
  forall idx i recommendation,
    nth_error recommendations i = Some recommendation ->
    In (Print (String.concat "" ["  "; decimal (idx + i); ". "; recommendation]))
      (recommendation_lines idx recommendations).
Proof.
  induction recommendations as [| rec rest IH]; intros idx i recommendation Hnth.
  - destruct i; discriminate.
  - destruct i as [| i]; cbn [nth_error] in Hnth.
    + injection Hnth as ->. rewrite Nat.add_0_r. now left.
    + right. rewrite <- Nat.add_succ_comm. now apply IH.
Qed.

Lemma headed_prints_app (title : string) (out more : list output) :
  headed_prints title out ->
  forallb is_print more = true ->
  headed_prints title (out ++ more).
Proof.
  intros [body [-> Hbody]] Hmore. exists (body ++ more).
  split; [reflexivity |]. now rewrite forallb_app, Hbody, Hmore.
Qed.

Lemma needs_spoofing_has_model (r : pyval) (c : cpu_spoof) :
  spoof_cpu_for_chromebook r = Ok c ->
  needs_spoofing c = true ->
  exists model, spoof_as c = Some model.
Proof.
  unfold spoof_cpu_for_chromebook.
  destruct (py_get r "CPU" (PDict [])) as [cpu | x]; [| discriminate].
  cbn [bind].
  destruct (py_get cpu "Processor Name" (PStr "")) as [cpu_name | x];
    [| discriminate].
  cbn [bind].
  destruct (py_get cpu "Codename" (PStr "")) as [cpu_codename | x];
    [| discriminate].
  cbn [bind].
  destruct (py_in "Celeron" cpu_name) as [celeron | x]; [| discriminate].
  cbn [bind].
  destruct (if celeron then Ok true else py_in "Pentium" cpu_name)
    as [[|] | x]; cbn [bind]; [| | discriminate].
  - destruct (cpu_chain cpu_codename) as [chosen | x]; [| discriminate].
    cbn [bind]. intros H _. injection H as <-. now eexists.
  - intros H. injection H as <-. discriminate.
Qed.

Section PrinterFacts.

Variable ChromebookIDs : list (string * list string).
Variable dict_repr : list (string * pyval) -> string.

Lemma device_lines_are_prints (devices : list matched_device) :
  forallb is_print (map (device_line dict_repr) devices) = true.
Proof.
  induction devices as [| device rest IH]; [reflexivity | exact IH].
Qed.

Lemma gpu_lines_are_prints (entries : list (string * igpu_spoof)) :
  forallb is_print (flat_map (gpu_lines dict_repr) entries) = true.
Proof.
  induction entries as [| entry rest IH]; [reflexivity | exact IH].
Qed.

(** A detector that returns false lets the diagnostic info through. *)
Lemma info_when_not_detected (r : pyval) :
  is_chromebook ChromebookIDs r = Ok false ->
  exists info, get_chromebook_info ChromebookIDs r = Ok info.
Proof.
  intros Hdet.
  destruct (is_chromebook_false_inv ChromebookIDs r Hdet) as [items [Hitems Hloop]].
  unfold get_chromebook_info. rewrite Hdet, Hitems. cbn [bind py_items].
  rewrite (no_device_when_not_detected ChromebookIDs items Hloop []).
  unfold is_chromebook in Hdet.
  destruct (py_get r "Motherboard" (PDict [])) as [motherboard | x];
    [| discriminate].
  cbn [bind] in *.
  destruct motherboard as [| s | m]; try discriminate.
  cbn [py_get bind]. now eexists.
Qed.

(** X10.  The method is silent unless the platform is detected: when the
    detector returns false it sends nothing out, does not prompt and ends
    normally; when the report cannot be assembled it sends nothing out and
    the exception goes through; anything sent out means the detector
    returned true. *)
Theorem print_is_silent_unless_detected (r macos_version : pyval) :
  (is_chromebook ChromebookIDs r = Ok false ->
   print_chromebook_detection_info ChromebookIDs dict_repr r macos_version
   = ([], None)) /\
  (forall e,
      generate_chromebook_report ChromebookIDs r macos_version = Raise e ->
      print_chromebook_detection_info ChromebookIDs dict_repr r macos_version
      = ([], Some e)) /\
  (fst (print_chromebook_detection_info ChromebookIDs dict_repr r macos_version)
   <> [] ->
   is_chromebook ChromebookIDs r = Ok true).
Proof.
  unfold print_chromebook_detection_info. split; [| split].
  - intros Hdet. destruct (info_when_not_detected r Hdet) as [info Hinfo].
    unfold generate_chromebook_report. now rewrite Hdet, Hinfo.
  - intros e Hraise. now rewrite Hraise.
  - destruct (generate_chromebook_report ChromebookIDs r macos_version)
      as [report | e] eqn:Hrun; [| intros H; now contradiction H].
    destruct (generate_chromebook_report_inv ChromebookIDs r macos_version report Hrun)
      as [info [_ [[_ ->] | [Hdet _]]]];
      [intros H; now contradiction H | intros _; exact Hdet].
Qed.

(** X11.  Once the report is assembled for a detected platform the method
    runs to its end: no key is missing from the report it reads, the
    output opens with the header, goes on with prints only and closes with
    the one prompt. *)
Theorem print_runs_to_the_prompt
    (r macos_version : pyval) (report : chromebook_report) :
  generate_chromebook_report ChromebookIDs r macos_version = Ok report ->
  rep_is_chromebook report = true ->
  exists body,
    print_chromebook_detection_info ChromebookIDs dict_repr r macos_version
    = (Head "Chromebook Detection" :: body
         ++ [RequestInput "Press Enter to continue..."],
       None) /\
    forallb is_print body = true.
Proof.
  intros Hrun Hflag.
  destruct (generate_chromebook_report_inv ChromebookIDs r macos_version report Hrun)
    as [info [_ [[_ ->] | [_ [igpu [cpu [_ [Hcpu ->]]]]]]]]; [discriminate |].
  unfold print_chromebook_detection_info. rewrite Hrun.
  cbn [rep_is_chromebook negb rep_chromebook_info rep_cpu_spoofing
       rep_igpu_spoofing rep_recommendations].
  assert (Hblock : exists lines,
             cpu_block dict_repr (Some cpu) = (lines, None) /\
             forallb is_print lines = true).
  { unfold cpu_block. destruct (needs_spoofing cpu) eqn:Hneeds.
    - destruct (needs_spoofing_has_model r cpu Hcpu Hneeds) as [model ->].
      eexists. split; reflexivity.
    - exists []. split; reflexivity. }
  destruct Hblock as [lines [-> Hlines]].
  match goal with
  | |- exists body, (?out ++ _, None) = _ /\ _ =>
      assert (Hout : headed_prints "Chromebook Detection" out)
  end.
  { repeat match goal with
           | |- headed_prints _ (if ?b then _ else _) => destruct b
           | |- headed_prints _ (_ ++ _) =>
               apply headed_prints_app;
               [| rewrite ?forallb_app, ?device_lines_are_prints,
                    ?gpu_lines_are_prints, ?recommendation_lines_are_prints;
                  assumption || reflexivity]
           end;
      (eexists; split; reflexivity). }
  destruct Hout as [body [-> Hbody]]. exists body. split; [reflexivity | exact Hbody].
Qed.

(** X12.  For a detected platform every recommendation of the report is
    printed with its rank, counted from one, in front of it. *)
Theorem print_numbers_recommendations_from_one
    (r macos_version : pyval) (report : chromebook_report) :
  generate_chromebook_report ChromebookIDs r macos_version = Ok report ->
  rep_is_chromebook report = true ->
  forall i recommendation,
    nth_error (rep_recommendations report) i = Some recommendation ->
    In (Print (String.concat "" ["  "; decimal (S i); ". "; recommendation]))
      (fst (print_chromebook_detection_info ChromebookIDs dict_repr r
              macos_version)).
Proof.
  intros Hrun Hflag i recommendation Hnth.
  destruct (generate_chromebook_report_inv ChromebookIDs r macos_version report Hrun)
    as [info [_ [[_ ->] | [_ [igpu [cpu [_ [Hcpu ->]]]]]]]]; [discriminate |].
  unfold print_chromebook_detection_info. rewrite Hrun.
  cbn [rep_is_chromebook negb rep_chromebook_info rep_cpu_spoofing
       rep_igpu_spoofing rep_recommendations] in *.
  assert (Hblock : exists lines, cpu_block dict_repr (Some cpu) = (lines, None)).
  { unfold cpu_block. destruct (needs_spoofing cpu) eqn:Hneeds.
    - destruct (needs_spoofing_has_model r cpu Hcpu Hneeds) as [model ->].
      now eexists.
    - now exists []. }
  destruct Hblock as [lines ->]. cbn [fst].
  assert (Htruthy : truthy (recommendations_for igpu cpu) = true) by reflexivity.
  rewrite Htruthy.
  apply in_or_app. left. apply in_or_app. right.
  cbn [app]. right. apply in_or_app. left.
  exact (recommendation_lines_nth _ 1 i recommendation Hnth).
Qed.

End PrinterFacts.

Lemma print_is_silent_unless_detected_witness :
  print_chromebook_detection_info example_ids example_repr example_laptop
    example_version
  = ([], None).
Proof.
  exact (proj1 (print_is_silent_unless_detected example_ids example_repr
                  example_laptop example_version) eq_refl).
Defined.

Lemma print_runs_to_the_prompt_witness :
  exists body,
    print_chromebook_detection_info example_ids example_repr example_chromebook
      example_version
    = (Head "Chromebook Detection" :: body
         ++ [RequestInput "Press Enter to continue..."],
       None).
Proof.
  destruct (print_runs_to_the_prompt example_ids example_repr example_chromebook
              example_version _ eq_refl eq_refl)
    as [body [Hout _]].
  now exists body.
Defined.

Lemma print_numbers_recommendations_from_one_witness :
  In (Print "  3. CPU will be spoofed as Core i3-8100")
    (fst (print_chromebook_detection_info example_ids example_repr
            example_chromebook example_version)).
Proof.
  exact (print_numbers_recommendations_from_one example_ids example_repr
           example_chromebook example_version _ eq_refl eq_refl
           2 "CPU will be spoofed as Core i3-8100" eq_refl).
Defined.

(** ** The detector and the size of the dataset *)

(** X13.  Entries added to the reference dataset never take a detection
    away: a well-formed record that the detector accepts with one dataset
    is accepted with every dataset that lists at least the same pairs. *)
Theorem detection_survives_dataset_growth
    (smaller larger : list (string * list string)) (r : pyval) :
  well_formed r = true ->
  dataset_extends larger smaller ->
  is_chromebook smaller r = Ok true ->
  is_chromebook larger r = Ok true.
Proof.
  intros Hwf Hext. rewrite !is_chromebook_wf by assumption.
  intros Hdet. injection Hdet as Hdet. f_equal.
  apply detect_iff_rules in Hdet. apply detect_iff_rules.
  destruct Hdet as [HA | [name [props [subsystems [Hin [Hids Hsub]]]]]];
    [now left | right].
  destruct (Hext _ _ Hids) as [subsystems' [Hids' Hincl]].
  exists name, props, subsystems'. repeat split; try assumption.
  now apply Hincl.
Qed.

Lemma detection_survives_dataset_growth_witness :
  is_chromebook (("8086-0000", ["1AE0-0001"]) :: example_ids) example_nameless
  = Ok true.
Proof.
  apply (detection_survives_dataset_growth example_ids
           (("8086-0000", ["1AE0-0001"]) :: example_ids) example_nameless).
  - reflexivity.
  - intros device_id subsystems Hids. exists subsystems.
    split; [| apply incl_refl].
    cbn [dict_lookup]. destruct (String.eqb device_id "8086-0000") eqn:E.
    + apply String.eqb_eq in E. subst device_id. discriminate.
    + exact Hids.
  - reflexivity.
Defined.
